(** * Process supervision engine of [utils/deployment_helper.py]

    A shallow embedding of the supervisor functions [start_project],
    [stop_project], [restart_project], [get_project_status] and
    [get_project_usage], together with the module-level registry
    [running_processes].

    The Python code talks to the operating system (the file system,
    [subprocess.Popen], signals, [psutil]) and to the database module.  The
    part of those collaborators that the supervisor itself determines (which
    children it spawned, which of them are still alive, which files exist,
    which execution-info documents are stored) is explicit state.  Everything
    the environment decides on its own during one call (does [Popen] raise,
    which PID does the child get, does the database call fail, ...) is read
    from an [Env] record that the call receives; theorems quantify over it.

    Exceptions are those of class [Exception], the class both [except]
    clauses of the source catch.  Text is ASCII/UTF-8 bytes; the functions
    are sequential, one call at a time. *)

From Stdlib Require Import ZArith DecimalString Ascii String.
From stdpp Require Import base option gmap strings list.

Local Open Scope Z_scope.

(** ** Text helpers *)

Module Text.

(** The newline of the f-strings. *)
Definition nl : string := String (ascii_of_nat 10) "".

(** [str(n)] for a Python [int]. *)
Definition str_int (n : Z) : string := NilZero.string_of_int (Z.to_int n).

(** [f"{n:02d}"]: at least two digits, the sign in front. *)
Definition pad2 (n : Z) : string :=
  if bool_decide (0 <= n < 10) then "0" +:+ str_int n else str_int n.

(** The separators of [str.split()] that take one byte: tab, line feed,
    vertical tab, form feed, carriage return, the four separators 0x1c..0x1f
    and the space. *)
Definition is_space (c : ascii) : bool :=
  let n := nat_of_ascii c in
  ((9 <=? n)%nat && (n <=? 13)%nat) || ((28 <=? n)%nat && (n <=? 32)%nat).

(** The other separators of [str.split()], by the bytes of their UTF-8
    encoding: U+0085 and U+00A0 take two bytes (C2 85, C2 A0); U+1680
    (E1 9A 80), U+2000..U+200A, U+2028, U+2029, U+202F (E2 80 ..), U+205F
    (E2 81 9F) and U+3000 (E3 80 80) take three. *)
Definition space_lead (n1 : nat) : bool :=
  ((n1 =? 194) || (n1 =? 225) || (n1 =? 226) || (n1 =? 227))%nat.

Definition space2 (n1 n2 : nat) : bool :=
  ((n1 =? 194) && ((n2 =? 133) || (n2 =? 160)))%nat.

Definition space3_lead (n1 n2 : nat) : bool :=
  (((n1 =? 225) && (n2 =? 154))
   || ((n1 =? 226) && ((n2 =? 128) || (n2 =? 129)))
   || ((n1 =? 227) && (n2 =? 128)))%nat.

Definition space3 (n1 n2 n3 : nat) : bool :=
  (((n1 =? 225) && (n2 =? 154) && (n3 =? 128))
   || ((n1 =? 226) && (n2 =? 128)
       && (((128 <=? n3) && (n3 <=? 138))
           || (n3 =? 168) || (n3 =? 169) || (n3 =? 175)))
   || ((n1 =? 226) && (n2 =? 129) && (n3 =? 159))
   || ((n1 =? 227) && (n2 =? 128) && (n3 =? 128)))%nat.

(** The number of bytes of the separator a text starts with; 0 when it
    starts with none. *)
Definition space_width (s : string) : nat :=
  match s with
  | EmptyString => 0
  | String c1 s1 =>
      if is_space c1 then 1
      else
        match s1 with
        | EmptyString => 0
        | String c2 s2 =>
            if space2 (nat_of_ascii c1) (nat_of_ascii c2) then 2
            else
              match s2 with
              | EmptyString => 0
              | String c3 _ =>
                  if space3 (nat_of_ascii c1) (nat_of_ascii c2) (nat_of_ascii c3)
                  then 3 else 0
              end
        end
  end%nat.

(** The token read so far, when there is one. *)
Definition flush (cur : string) : list string :=
  if decide (cur = "") then [] else [cur].

(** [s.split()]: runs of separators delimit the tokens, no empty token is
    produced.  [cur] is the token being read, [skip] the number of bytes of
    the current separator still to be passed over. *)
Fixpoint split_go (skip : nat) (cur : string) (s : string) : list string :=
  match s with
  | EmptyString => flush cur
  | String c s' =>
      match skip with
      | S k => split_go k cur s'
      | O =>
          match space_width s with
          | O => split_go 0 (cur +:+ String c "") s'
          | S k => flush cur ++ split_go k "" s'
          end
      end
  end.

Definition split (s : string) : list string := split_go 0 "" s.

(** [s.endswith("/")] *)
Fixpoint ends_with_slash (s : string) : bool :=
  match s with
  | EmptyString => false
  | String c EmptyString => bool_decide (c = "/"%char)
  | String _ s' => ends_with_slash s'
  end.

(** [posixpath.join(a, b)] *)
Definition path_join (a b : string) : string :=
  match b with
  | String "/"%char _ => b
  | _ => if decide (a = "") then b
         else if ends_with_slash a then a +:+ b
         else a +:+ "/" +:+ b
  end.

End Text.

Import Text.

(** ** Python values, exceptions, results *)

(** [datetime], by its calendar fields. *)
Record Datetime := mkDatetime {
  year : Z; month : Z; day : Z; hour : Z; minute : Z; second : Z
}.

(** The values stored in execution-info documents. *)
Inductive Val :=
| VNone
| VBool (b : bool)
| VInt (n : Z)
| VStr (s : string)
| VDatetime (t : Datetime).

#[global] Instance Datetime_eq_dec : EqDecision Datetime.
Proof. solve_decision. Defined.
#[global] Instance Val_eq_dec : EqDecision Val.
Proof. solve_decision. Defined.

(** An execution-info document, and the [update_data] dicts. *)
Abbreviation Doc := (gmap string Val).

(** The [project] dict handed to the supervisor.  A key may be missing
    ([None]); present values have the type the database gives them. *)
Record Project := mkProject {
  p_path : option string;              (* project['path'] *)
  p_name : option string;              (* project['name'] *)
  p_run_command : option string;       (* project.get('run_command') *)
  p_execution_info : option Doc        (* project['execution_info'] *)
}.

Inductive ExnClass := KeyErrorC | TimeoutExpiredC | OtherC.

(** An exception: its class, as far as the handlers look at it, and
    [str(e)]. *)
Record Exn := mkExn { exn_class : ExnClass; exn_text : string }.

(** [KeyError(k)] for a missing dict key; [str] of it is the [repr] of the
    key. *)
Definition KeyError (k : string) : Exn := mkExn KeyErrorC ("'" +:+ k +:+ "'").

#[global] Instance ExnClass_eq_dec : EqDecision ExnClass.
Proof. solve_decision. Defined.

(** Outcome of evaluating a Python expression or call. *)
Inductive Res (A : Type) :=
| Ret (a : A)
| Raise (e : Exn).
Arguments Ret {A} a.
Arguments Raise {A} e.

(** ** Operating system and persistence state *)

(** A child started by [subprocess.Popen]. *)
Record Proc := mkProc {
  pid : Z;
  argv : list string;
  cwd : string;
  proc_env : gmap string string;
  proc_out : Val;                      (* stdout and stderr go to this file *)
  new_session : bool;
  alive : bool                         (* has not exited yet *)
}.

(** A [Popen] object is identified by its position in the list of children
    spawned so far; PIDs may repeat, positions do not. *)
Abbreviation Handle := nat.

(** Effects issued to the collaborators, oldest first. *)
Inductive Event :=
| EvOpen (target : Val)                        (* open(target, 'w') *)
| EvSpawn (cmd : list string) (dir : string)   (* subprocess.Popen(...) *)
| EvUpdate (project_id : string) (data : Doc)  (* update_project_execution_info *)
| EvTerminate (h : Handle)
| EvWait (h : Handle) (timeout : Z)
| EvKill (h : Handle)
| EvSleep (secs : Z).                          (* asyncio.sleep *)

Record State := mkState {
  running_processes : gmap string Handle;   (* the module-level dict *)
  procs : list Proc;                        (* children spawned so far *)
  files : gset string;                      (* paths that exist *)
  docs : gmap string Doc;                   (* stored execution info *)
  trace : list Event
}.

(** What the environment answers during one call. *)
Inductive WaitResult := WaitExited | WaitTimeout | WaitRaise (e : Exn).

Record Sample := mkSample {
  cpu_tenths : Z;      (* cpu_percent(), which psutil rounds to one decimal *)
  rss : Z              (* memory_info().rss, in bytes *)
}.

Record Env := mkEnv {
  environ : gmap string string;                 (* os.environ *)
  open_result : option Exn;                     (* open(log, 'w') raising *)
  dotenv_result : Res (gmap string string);     (* dotenv_values(path) *)
  popen_result : Res Z;                         (* Popen: the child's PID *)
  utcnow : Datetime;                            (* datetime.utcnow() *)
  update_result : option Exn;                   (* the database call raising *)
  terminate_result : option Exn;
  wait_result : WaitResult;
  kill_result : option Exn;
  uptime_result : Res Z;      (* now() - create_time() in microseconds *)
  sample_result : Res Sample  (* psutil.Process, cpu_percent, memory_info *)
}.

(** ** State and exception monad *)

Definition M (A : Type) : Type := State -> State * Res A.

Definition ret {A} (a : A) : M A := fun st => (st, Ret a).

Definition raise {A} (e : Exn) : M A := fun st => (st, Raise e).

Definition bind {A B} (m : M A) (k : A -> M B) : M B :=
  fun st =>
    match m st with
    | (st', Ret a) => k a st'
    | (st', Raise e) => (st', Raise e)
    end.

Notation "x <- m ;; k" := (bind m (fun x => k))
  (at level 100, m at next level, right associativity).
Notation "m ;;; k" := (bind m (fun _ => k))
  (at level 100, right associativity).

(** [try: body  except Exception as e: handler e] *)
Definition try_except {A} (body : M A) (handler : Exn -> M A) : M A :=
  fun st =>
    match body st with
    | (st', Ret a) => (st', Ret a)
    | (st', Raise e) => handler e st'
    end.

(** [try: body  except C: handler]: only exceptions of class [c] are
    caught. *)
Definition try_except_class {A} (c : ExnClass) (body : M A) (handler : M A) : M A :=
  fun st =>
    match body st with
    | (st', Ret a) => (st', Ret a)
    | (st', Raise e) =>
        if decide (exn_class e = c) then handler st' else (st', Raise e)
    end.

Definition log_event (ev : Event) (st : State) : State :=
  mkState (running_processes st) (procs st) (files st) (docs st) (trace st ++ [ev]).

Definition set_running_processes (r : gmap string Handle) (st : State) : State :=
  mkState r (procs st) (files st) (docs st) (trace st).

Definition set_procs (ps : list Proc) (st : State) : State :=
  mkState (running_processes st) ps (files st) (docs st) (trace st).

Definition set_files (fs : gset string) (st : State) : State :=
  mkState (running_processes st) (procs st) fs (docs st) (trace st).

Definition set_docs (d : gmap string Doc) (st : State) : State :=
  mkState (running_processes st) (procs st) (files st) d (trace st).

(** ** The calls the supervisor makes *)

(** [d[k]] on a dict where [o] is the entry under [k]. *)
Definition getitem {A} (k : string) (o : option A) : M A :=
  match o with
  | Some a => ret a
  | None => raise (KeyError k)
  end.

(** [os.path.exists(p)] *)
Definition path_exists (p : string) : M bool :=
  fun st => (st, Ret (bool_decide (p ∈ files st))).

(** [open(target, 'w')].  The resulting file object is identified by its
    target; opening a path creates the file. *)
Definition open_w (E : Env) (target : Val) : M Val :=
  fun st =>
    let st := log_event (EvOpen target) st in
    match open_result E with
    | Some e => (st, Raise e)
    | None =>
        match target with
        | VStr p => (set_files ({[p]} ∪ files st) st, Ret target)
        | _ => (st, Ret target)
        end
    end.

(** [dotenv_values(path)] *)
Definition dotenv_values (E : Env) (path : string) : M (gmap string string) :=
  fun st => (st, dotenv_result E).

(** [subprocess.Popen(cmd, cwd=dir, stdout=out, stderr=out,
    start_new_session=True, env=env)] *)
Definition Popen (E : Env) (cmd : list string) (dir : string) (out : Val)
    (env : gmap string string) : M Handle :=
  fun st =>
    let st := log_event (EvSpawn cmd dir) st in
    match popen_result E with
    | Raise e => (st, Raise e)
    | Ret child =>
        (set_procs (procs st ++ [mkProc child cmd dir env out true true]) st,
         Ret (length (procs st)))
    end.

(** [process.poll() is None] *)
Definition poll_is_None (st : State) (h : Handle) : bool :=
  match procs st !! h with
  | Some p => alive p
  | None => false
  end.

(** [process.pid] *)
Definition handle_pid (st : State) (h : Handle) : Z :=
  match procs st !! h with
  | Some p => pid p
  | None => 0
  end.

Definition exited (p : Proc) : Proc :=
  mkProc (pid p) (argv p) (cwd p) (proc_env p) (proc_out p) (new_session p) false.

Definition mark_exited (h : Handle) (st : State) : State :=
  set_procs (alter exited h (procs st)) st.

(** [process.terminate()] *)
Definition terminate (E : Env) (h : Handle) : M unit :=
  fun st =>
    let st := log_event (EvTerminate h) st in
    match terminate_result E with
    | Some e => (st, Raise e)
    | None => (st, Ret tt)
    end.

(** [process.wait(timeout=t)] *)
Definition wait (E : Env) (h : Handle) (t : Z) : M unit :=
  fun st =>
    let st := log_event (EvWait h t) st in
    match wait_result E with
    | WaitExited => (mark_exited h st, Ret tt)
    | WaitTimeout => (st, Raise (mkExn TimeoutExpiredC "timed out"))
    | WaitRaise e => (st, Raise e)
    end.

(** [process.kill()] *)
Definition kill (E : Env) (h : Handle) : M unit :=
  fun st =>
    let st := log_event (EvKill h) st in
    match kill_result E with
    | Some e => (st, Raise e)
    | None => (mark_exited h st, Ret tt)
    end.

(** [asyncio.sleep(secs)] *)
Definition sleep (secs : Z) : M unit :=
  fun st => (log_event (EvSleep secs) st, Ret tt).

(** Modelled from the spec: [update_project_execution_info] lives in the
    database module, which is not part of the sources at hand.  The spec
    gives it partial-update semantics (merge, not replace): the keys of
    [data] overwrite those of the stored document, the other keys stay.  A
    failing call raises and stores nothing. *)
Definition update_project_execution_info (E : Env) (project_id : string)
    (data : Doc) : M unit :=
  fun st =>
    let st := log_event (EvUpdate project_id data) st in
    match update_result E with
    | Some e => (st, Raise e)
    | None =>
        (set_docs (<[project_id := data ∪ default ∅ (docs st !! project_id)]> (docs st)) st,
         Ret tt)
    end.

(** ** Messages *)

Definition msg_already_running : string := "⚠️ Project is already running.".
Definition msg_venv_missing : string :=
  "❌ Virtual environment not found. Please install dependencies first.".
Definition msg_started (child : Z) : string :=
  "✅ Process started with PID: " +:+ str_int child.
Definition msg_execution_failed (e : Exn) : string :=
  "❌ Execution failed: " +:+ exn_text e.
Definition msg_not_running : string := "⚠️ Project is not running.".
Definition msg_already_stopped : string := "⚠️ Process already stopped.".
Definition msg_stopped : string := "✅ Process stopped successfully.".
Definition msg_stop_failed (e : Exn) : string :=
  "❌ Failed to stop process: " +:+ exn_text e.
Definition msg_usage_stopped : string := "⚠️ Project is stopped.".
Definition msg_usage_failed (e : Exn) : string :=
  "❌ Could not retrieve usage: " +:+ exn_text e.

(** ** start_project *)

(** [project_id in running_processes and
     running_processes[project_id].poll() is None] *)
Definition is_live (st : State) (project_id : string) : bool :=
  match running_processes st !! project_id with
  | Some process => poll_is_None st process
  | None => false
  end.

(** [os.path.join(project_path, ".venv", "bin", "python")] *)
Definition venv_python_of (project_path : string) : string :=
  path_join (path_join (path_join project_path ".venv") "bin") "python".

(** [[venv_python] + project.get("run_command", "python main.py").split()[1:]] *)
Definition run_cmd_of (venv_python : string) (project : Project) : list string :=
  let run_command := split (default "python main.py" (p_run_command project)) in
  venv_python :: tail run_command.

(** The [update_data] of a start. *)
Definition started_info (child : Z) (now : Datetime) : Doc :=
  list_to_map [("is_running", VBool true); ("pid", VInt child);
               ("last_run_time", VDatetime now); ("status", VStr "running")].

(** The update of a stop. *)
Definition stopped_info : Doc :=
  list_to_map [("is_running", VBool false); ("pid", VNone);
               ("status", VStr "stopped")].

Definition register (project_id : string) (process : Handle) : M unit :=
  fun st =>
    (set_running_processes (<[project_id := process]> (running_processes st)) st,
     Ret tt).

Definition get_pid (process : Handle) : M Z :=
  fun st => (st, Ret (handle_pid st process)).

Definition start_project (E : Env) (project_id : string) (project : Project)
    : M (bool * string) :=
  fun st =>
    if is_live st project_id then (st, Ret (false, msg_already_running))
    else
      try_except
        (project_path <- getitem "path" (p_path project) ;;
         let venv_python := venv_python_of project_path in
         venv_ok <- path_exists venv_python ;;
         if negb venv_ok then ret (false, msg_venv_missing)
         else
           let run_cmd := run_cmd_of venv_python project in
           exec_info <- getitem "execution_info" (p_execution_info project) ;;
           log_target <- getitem "log_file" (exec_info !! "log_file") ;;
           log_file <- open_w E log_target ;;
           let user_env_path := path_join project_path ".env" in
           has_env <- path_exists user_env_path ;;
           user_env_vars <- (if has_env then dotenv_values E user_env_path
                             else ret ∅) ;;
           let process_env := user_env_vars ∪ environ E in
           process <- Popen E run_cmd project_path log_file process_env ;;
           register project_id process ;;;
           child <- get_pid process ;;
           update_project_execution_info E project_id
             (started_info child (utcnow E)) ;;;
           ret (true, msg_started child))
        (fun e => ret (false, msg_execution_failed e))
        st.

(** ** stop_project *)

Definition stop_project (E : Env) (project_id : string) : M (bool * string) :=
  fun st =>
    match running_processes st !! project_id with
    | None => (st, Ret (false, msg_not_running))
    | Some process =>
        (* running_processes.pop(project_id) *)
        let st := set_running_processes (delete project_id (running_processes st)) st in
        if negb (poll_is_None st process)
        then (st, Ret (false, msg_already_stopped))
        else
          try_except
            (terminate E process ;;;
             try_except_class TimeoutExpiredC
               (wait E process 5)
               (kill E process) ;;;
             update_project_execution_info E project_id stopped_info ;;;
             ret (true, msg_stopped))
            (fun e => ret (false, msg_stop_failed e))
            st
    end.

(** ** restart_project *)

(** The two phases get their own answers from the environment. *)
Definition restart_project (Estop Estart : Env) (project_id : string)
    (project : Project) : M (bool * string) :=
  stop_project Estop project_id ;;;
  sleep 1 ;;;
  start_project Estart project_id project.

(** ** get_project_status *)

(** [str(timedelta(microseconds=us)).split('.')[0]]: the days, when there
    are any, then hours, minutes and seconds; the fraction is cut off. *)
Definition str_uptime (us : Z) : string :=
  let days := us / 86400000000 in
  let seconds := (us mod 86400000000) / 1000000 in
  let mm := seconds / 60 in
  let ss := seconds mod 60 in
  let hh := mm / 60 in
  let mm := mm mod 60 in
  let s := str_int hh +:+ ":" +:+ pad2 mm +:+ ":" +:+ pad2 ss in
  if decide (days = 0) then s
  else str_int days +:+ " day" +:+ (if decide (Z.abs days = 1) then "" else "s")
       +:+ ", " +:+ s.

(** [t.strftime("%Y-%m-%d %H:%M:%S UTC")], for years of four digits. *)
Definition strftime_utc (t : Datetime) : string :=
  str_int (year t) +:+ "-" +:+ pad2 (month t) +:+ "-" +:+ pad2 (day t) +:+ " "
  +:+ pad2 (hour t) +:+ ":" +:+ pad2 (minute t) +:+ ":" +:+ pad2 (second t)
  +:+ " UTC".

Definition status_running : string := "🟢 Running".
Definition status_stopped : string := "🔴 Stopped".

(** [f"{v}"] for [project.get('run_command')] *)
Definition str_opt (o : option string) : string := default "None" o.

Definition get_project_status (E : Env) (project_id : string)
    (project : Project) (detailed : bool) : M string :=
  exec_info <- getitem "execution_info" (p_execution_info project) ;;
  fun st =>
    let is_running := is_live st project_id in
    let '(status, pid_str, uptime_str) :=
      if is_running then
        let child := handle_pid st (default 0%nat (running_processes st !! project_id)) in
        (status_running, str_int child,
         match uptime_result E with
         | Ret us => str_uptime us
         | Raise _ => "N/A"
         end)
      else (status_stopped, "N/A", "N/A") in
    if negb detailed then (st, Ret status)
    else
      let last_run_str :=
        match exec_info !! "last_run_time" with
        | Some (VDatetime t) => strftime_utc t
        | _ => "Never"
        end in
      (name <- getitem "name" (p_name project) ;;
       ret ("**Project Status: `" +:+ name +:+ "`**" +:+ nl +:+ nl
            +:+ "🔹 **Status:** " +:+ status +:+ nl
            +:+ "🔹 **PID:** `" +:+ pid_str +:+ "`" +:+ nl
            +:+ "🔹 **Uptime:** `" +:+ uptime_str +:+ "`" +:+ nl
            +:+ "🔹 **Last Run:** `" +:+ last_run_str +:+ "`" +:+ nl
            +:+ "🔹 **Run Command:** `" +:+ str_opt (p_run_command project) +:+ "`"))
        st.

(** ** get_project_usage *)

(** [f"{n / d:.2f}"] for integers [0 <= n] and [0 < d] whose quotient is an
    exact float: the quotient in hundredths, ties to the even digit. *)
Definition format_2f (n d : Z) : string :=
  let q := (100 * n) / d in
  let r := (100 * n) mod d in
  let h := if decide (2 * r < d) then q
           else if decide (d < 2 * r) then q + 1
           else if Z.even q then q else q + 1 in
  str_int (h / 100) +:+ "." +:+ pad2 (h mod 100).

Definition usage_report (child : Z) (s : Sample) : string :=
  "**Resource Usage (PID `" +:+ str_int child +:+ "`)**" +:+ nl +:+ nl
  +:+ "📊 **CPU:** " +:+ format_2f (cpu_tenths s) 10 +:+ "%" +:+ nl
  +:+ "🧠 **RAM:** " +:+ format_2f (rss s) (1024 * 1024) +:+ " MB".

(** [psutil.Process(pid)], [cpu_percent(interval=1)] and [memory_info()] *)
Definition sample_process (E : Env) (process : Handle) : M Sample :=
  fun st => (st, sample_result E).

Definition get_project_usage (E : Env) (project_id : string) : M string :=
  fun st =>
    match running_processes st !! project_id with
    | None => (st, Ret msg_not_running)
    | Some process =>
        if negb (poll_is_None st process) then (st, Ret msg_usage_stopped)
        else
          try_except
            (s <- sample_process E process ;;
             child <- get_pid process ;;
             ret (usage_report child s))
            (fun e => ret (msg_usage_failed e))
            st
    end.

(** ** The public surface *)

(** What a call hands back to its caller: the two-element tuple of
    [start_project], [stop_project] and [restart_project], or the bare
    string of [get_project_status] and [get_project_usage]. *)
Inductive PyResult :=
| RTuple (ok : bool) (message : string)
| RStr (message : string).

Inductive Op :=
| OpStart (project_id : string) (project : Project)
| OpStop (project_id : string)
| OpRestart (project_id : string) (project : Project)
| OpStatus (project_id : string) (project : Project) (detailed : bool)
| OpUsage (project_id : string).

Definition as_tuple (m : M (bool * string)) : M PyResult :=
  r <- m ;; ret (RTuple (fst r) (snd r)).

Definition as_str (m : M string) : M PyResult :=
  r <- m ;; ret (RStr r).

(** One call of a public function; [E'] serves the start phase of a
    restart. *)
Definition call (E E' : Env) (op : Op) : M PyResult :=
  match op with
  | OpStart project_id project => as_tuple (start_project E project_id project)
  | OpStop project_id => as_tuple (stop_project E project_id)
  | OpRestart project_id project => as_tuple (restart_project E E' project_id project)
  | OpStatus project_id project detailed =>
      as_str (get_project_status E project_id project detailed)
  | OpUsage project_id => as_str (get_project_usage E project_id)
  end.

(** The boolean success indicator of a result, when it has one. *)
Definition success_indicator (r : PyResult) : option bool :=
  match r with
  | RTuple ok _ => Some ok
  | RStr _ => None
  end.

(** A child exits on its own: the environment's move between calls. *)
Definition child_exits (h : Handle) (st : State) : State := mark_exited h st.

(** The state a start leaves behind when it reaches the spawn and the spawn
    succeeds: the log file exists, the child is in the process table and
    registered. *)
Definition spawned_state (st : State) (project_id : string) (log_target : Val)
    (p : Proc) : State :=
  mkState (<[project_id := length (procs st)]> (running_processes st))
          (procs st ++ [p])
          (match log_target with VStr f => {[f]} ∪ files st | _ => files st end)
          (docs st)
          (trace st ++ [EvOpen log_target; EvSpawn (argv p) (cwd p)]).

(** ** A running example *)

Module Example.

(** The runtime of project [p] is provisioned, nothing is running yet. *)
Definition st0 : State :=
  mkState ∅ [] {[ "/srv/p/.venv/bin/python" ]}
          {[ "p" := {[ "log_file" := VStr "/srv/p/out.log" ]} ]} [].

Definition project : Project :=
  mkProject (Some "/srv/p") (Some "demo") (Some "python main.py")
            (Some {[ "log_file" := VStr "/srv/p/out.log" ]}).

(** Every call of the environment succeeds; the child gets PID 4242. *)
Definition E0 : Env :=
  mkEnv ∅ None (Ret ∅) (Ret 4242) (mkDatetime 2024 1 2 3 4 5) None
        None WaitExited None (Ret 93784000000)
        (Ret (mkSample 125 (3 * 1024 * 1024 + 131072))).

Definition boom : Exn := mkExn OtherC "boom".

(** The database is unreachable. *)
Definition E_db_down : Env :=
  mkEnv ∅ None (Ret ∅) (Ret 4242) (mkDatetime 2024 1 2 3 4 5) (Some boom)
        None WaitExited None (Ret 93784000000)
        (Ret (mkSample 125 (3 * 1024 * 1024 + 131072))).

(** Sending the termination signal fails. *)
Definition E_signal_fails : Env :=
  mkEnv ∅ None (Ret ∅) (Ret 4243) (mkDatetime 2024 1 2 3 4 6) None
        (Some boom) WaitExited None (Ret 93784000000)
        (Ret (mkSample 125 (3 * 1024 * 1024 + 131072))).

(** The child cannot be inspected: it is gone, or access is denied. *)
Definition E_no_sample : Env :=
  mkEnv ∅ None (Ret ∅) (Ret 4242) (mkDatetime 2024 1 2 3 4 5) None
        None WaitExited None (Raise boom) (Raise boom).

(** [p] has been started. *)
Definition st_started : State := fst (start_project E0 "p" project st0).

(** ... and then its child has exited by itself. *)
Definition st_exited : State := child_exits 0 st_started.

(** ... or the runtime has been deleted under the running child. *)
Definition st_unprovisioned : State :=
  set_files ∅ st_started.

End Example.

(** ** install_project_dependencies *)

Module Install.

(** What a finished subprocess leaves behind: its return code, the decoded
    text of its standard error, and what it did to the file system. *)
Record Completed := mkCompleted {
  returncode : Z;
  stderr : string;
  fs_after : gset string -> gset string
}.

(** One call of [asyncio.create_subprocess_exec] with its [cwd]. *)
Record Run := mkRun { run_argv : list string; run_cwd : string }.

(** What the three programs answer.  [Raise] stands for the subprocess that
    cannot be started at all, or whose output cannot be decoded. *)
Record InstallEnv := mkInstallEnv {
  venv_result : Res Completed;          (* python3 -m venv .venv *)
  pip_upgrade_result : Res Completed;   (* pip install --upgrade pip *)
  pip_install_result : Res Completed    (* pip install -r requirements.txt *)
}.

(** The supervisor state together with the subprocesses run so far, oldest
    first. *)
Definition MI (A : Type) : Type := State * list Run -> (State * list Run) * Res A.

Definition retI {A} (a : A) : MI A := fun s => (s, Ret a).

Definition bindI {A B} (m : MI A) (k : A -> MI B) : MI B :=
  fun s =>
    match m s with
    | (s', Ret a) => k a s'
    | (s', Raise e) => (s', Raise e)
    end.

Notation "x <~ m ;; k" := (bindI m (fun x => k))
  (at level 100, m at next level, right associativity).

(** [create_subprocess_exec] followed by [communicate()]. *)
Definition run_exec (answer : Res Completed) (cmd : list string) (dir : string)
    : MI Completed :=
  fun s =>
    let runs := s.2 ++ [mkRun cmd dir] in
    match answer with
    | Raise e => ((s.1, runs), Raise e)
    | Ret c => ((set_files (fs_after c (files s.1)) s.1, runs), Ret c)
    end.

Definition path_existsI (p : string) : MI bool :=
  fun s => (s, Ret (bool_decide (p ∈ files s.1))).

Definition venv_cmd : list string := ["python3"; "-m"; "venv"; ".venv"].
Definition pip_upgrade_cmd : list string :=
  [".venv/bin/python"; "-m"; "pip"; "install"; "--upgrade"; "pip"].
Definition pip_install_cmd : list string :=
  [".venv/bin/python"; "-m"; "pip"; "install"; "-r"; "requirements.txt"].

Definition msg_venv_failed (err : string) : string :=
  "❌ Failed to create venv:" +:+ nl +:+ err.
Definition msg_pip_failed (err : string) : string :=
  "❌ Pip install failed:" +:+ nl +:+ err.
Definition msg_ready : string :=
  "✅ Virtual environment ready and dependencies installed.".

(** The function from "Upgrade pip" on. *)
Definition upgrade_and_install (I : InstallEnv) (project_path : string)
    : MI (bool * string) :=
  let requirements_path := path_join project_path "requirements.txt" in
  _ <~ run_exec (pip_upgrade_result I) pip_upgrade_cmd project_path ;;
  has_requirements <~ path_existsI requirements_path ;;
  if has_requirements then
    c <~ run_exec (pip_install_result I) pip_install_cmd project_path ;;
    if decide (returncode c ≠ 0) then retI (false, msg_pip_failed (stderr c))
    else retI (true, msg_ready)
  else retI (true, msg_ready).

Definition install_project_dependencies (I : InstallEnv) (project_id : string)
    (project : Project) : MI (bool * string) :=
  fun s =>
    match p_path project with
    | None => (s, Raise (KeyError "path"))
    | Some project_path =>
        let venv_path := path_join project_path ".venv" in
        (has_venv <~ path_existsI venv_path ;;
         if negb has_venv then
           c <~ run_exec (venv_result I) venv_cmd project_path ;;
           if decide (returncode c ≠ 0) then retI (false, msg_venv_failed (stderr c))
           else upgrade_and_install I project_path
         else upgrade_and_install I project_path) s
    end.

End Install.

(** ** get_project_logs *)

(** Modelled from the spec: [get_project_by_id] lives in the database
    module, which is not part of the sources at hand.  The spec makes it a
    fetch by id that either yields the project or fails; which of the two,
    and with which project, is the database's answer. *)
Definition get_project_by_id (answer : Res Project) (project_id : string)
    : M Project :=
  fun st => (st, answer).

Definition get_project_logs (answer : Res Project) (project_id : string) : M Val :=
  project <- get_project_by_id answer project_id ;;
  exec_info <- getitem "execution_info" (p_execution_info project) ;;
  getitem "log_file" (exec_info !! "log_file").

(** ** Notions used by the further properties *)

(** Every registered handle is a child that was spawned, and no child is
    registered under two projects. *)
Definition registry_ok (st : State) : Prop :=
  (forall project_id h,
     running_processes st !! project_id = Some h -> (h < length (procs st))%nat) /\
  (forall id1 id2 h,
     running_processes st !! id1 = Some h ->
     running_processes st !! id2 = Some h -> id1 = id2).

(** The keys a start or a stop writes to a stored document. *)
Definition lifecycle_keys : list string :=
  ["is_running"; "pid"; "last_run_time"; "status"].

(** Two collections of stored documents agree on everything a start or a
    stop of [project_id] has no business with: the documents of the other
    projects, and in the project's own document every key that is not a
    lifecycle key. *)
Definition same_outside_lifecycle (project_id : string)
    (stored stored' : gmap string Doc) : Prop :=
  (forall other, other <> project_id -> stored' !! other = stored !! other) /\
  (forall k, k ∉ lifecycle_keys ->
     stored' !! project_id ≫= (.!! k) = stored !! project_id ≫= (.!! k)).

(** A string contains a one-byte separator of [str.split()]. *)
Fixpoint has_space (s : string) : bool :=
  match s with
  | EmptyString => false
  | String c s' => is_space c || has_space s'
  end.

(** [" ".join(tokens)] *)
Fixpoint join_spaces (tokens : list string) : string :=
  match tokens with
  | [] => ""
  | [t] => t
  | t :: rest => t +:+ " " +:+ join_spaces rest
  end.

(** *** Texts as Python sees them

    A Python [str] is a sequence of code points; the texts of the model are
    their UTF-8 bytes. *)

Definition byte (n : Z) : ascii := ascii_of_nat (Z.to_nat n).

(** A code point that a [str] can hold and UTF-8 can encode: the surrogates
    are left out. *)
Definition is_scalar (c : Z) : Prop :=
  0 <= c < 55296 \/ 57344 <= c < 1114112.

(** The UTF-8 bytes of a code point. *)
Definition encode_char (c : Z) : string :=
  if c <? 128 then String (byte c) ""
  else if c <? 2048 then
    String (byte (192 + c / 64)) (String (byte (128 + c mod 64)) "")
  else if c <? 65536 then
    String (byte (224 + c / 4096))
      (String (byte (128 + (c / 64) mod 64)) (String (byte (128 + c mod 64)) ""))
  else
    String (byte (240 + c / 262144))
      (String (byte (128 + (c / 4096) mod 64))
         (String (byte (128 + (c / 64) mod 64))
            (String (byte (128 + c mod 64)) ""))).

Fixpoint encode (cps : list Z) : string :=
  match cps with
  | [] => ""
  | c :: cps' => encode_char c +:+ encode cps'
  end.

(** The code points Python counts as whitespace ([str.isspace], which is
    what [str.split()] goes by): U+0009..U+000D, U+001C..U+0020, U+0085,
    U+00A0, U+1680, U+2000..U+200A, U+2028, U+2029, U+202F, U+205F,
    U+3000. *)
Definition is_whitespace (c : Z) : bool :=
  ((9 <=? c) && (c <=? 13)) || ((28 <=? c) && (c <=? 32))
  || (c =? 133) || (c =? 160) || (c =? 5760)
  || ((8192 <=? c) && (c <=? 8202))
  || (c =? 8232) || (c =? 8233) || (c =? 8239) || (c =? 8287) || (c =? 12288).

(** The whitespace code points, one by one. *)
Definition whitespace_table : list Z :=
  [9; 10; 11; 12; 13; 28; 29; 30; 31; 32; 133; 160; 5760;
   8192; 8193; 8194; 8195; 8196; 8197; 8198; 8199; 8200; 8201; 8202;
   8232; 8233; 8239; 8287; 12288].

(** A token as Python sees it: at least one code point, none of them
    whitespace. *)
Definition is_text_token (cps : list Z) : Prop :=
  cps <> [] /\ Forall (fun c => is_scalar c /\ is_whitespace c = false) cps.

(** A run of whitespace. *)
Definition is_text_gap (cps : list Z) : Prop :=
  Forall (fun c => is_whitespace c = true) cps.

(** A command line written out: every token with the whitespace that
    follows it. *)
Fixpoint layout (items : list (list Z * list Z)) : list Z :=
  match items with
  | [] => []
  | (token, gap) :: rest => token ++ gap ++ layout rest
  end.

(** The tokens are tokens, the gaps are whitespace, and only the last gap
    may be empty. *)
Fixpoint well_laid (items : list (list Z * list Z)) : Prop :=
  match items with
  | [] => True
  | (token, gap) :: rest =>
      is_text_token token /\ is_text_gap gap /\
      (rest <> [] -> gap <> []) /\ well_laid rest
  end.

(** A text that is exactly one separator. *)
Definition is_space_char (w : string) : Prop :=
  w <> "" /\ space_width w = String.length w.

(** A text starts with a separator, or with the first bytes of one and
    nothing after them. *)
Definition may_start_space (u : string) : bool :=
  match u with
  | EmptyString => false
  | String c1 u1 =>
      is_space c1
      || match u1 with
         | EmptyString => space_lead (nat_of_ascii c1)
         | String c2 u2 =>
             space2 (nat_of_ascii c1) (nat_of_ascii c2)
             || match u2 with
                | EmptyString => space3_lead (nat_of_ascii c1) (nat_of_ascii c2)
                | String c3 _ =>
                    space3 (nat_of_ascii c1) (nat_of_ascii c2) (nat_of_ascii c3)
                end
         end
  end.

(** No separator starts anywhere in a text, whatever follows it. *)
Fixpoint clean (t : string) : bool :=
  match t with
  | EmptyString => true
  | String c t' => negb (may_start_space t) && clean t'
  end.

(** A string made of one-byte separators only, the empty string included. *)
Fixpoint blank (s : string) : bool :=
  match s with
  | EmptyString => true
  | String c s' => is_space c && blank s'
  end.

(** What every token [str.split()] produces is: not empty, and free of the
    one-byte separators. *)
Definition is_token (t : string) : Prop := t <> "" /\ has_space t = false.

(** The wait of a stop ran into its timeout. *)
Definition timed_out (w : WaitResult) : Prop :=
  w = WaitTimeout \/ exists e, w = WaitRaise e /\ exn_class e = TimeoutExpiredC.

(** The ways through [stop_project] once it has found a live child [h]:
    the events issued, whether the child is known to be gone afterwards,
    whether the stored document was updated, and the answer. *)
Inductive stop_path (E : Env) (project_id : string) (h : Handle)
    : list Event -> bool -> bool -> bool * string -> Prop :=
| path_signal_failed e :
    terminate_result E = Some e ->
    stop_path E project_id h [EvTerminate h] false false
      (false, msg_stop_failed e)
| path_exited :
    terminate_result E = None -> wait_result E = WaitExited ->
    update_result E = None ->
    stop_path E project_id h
      [EvTerminate h; EvWait h 5; EvUpdate project_id stopped_info] true true
      (true, msg_stopped)
| path_exited_update_failed e :
    terminate_result E = None -> wait_result E = WaitExited ->
    update_result E = Some e ->
    stop_path E project_id h
      [EvTerminate h; EvWait h 5; EvUpdate project_id stopped_info] true false
      (false, msg_stop_failed e)
| path_wait_failed e :
    terminate_result E = None -> wait_result E = WaitRaise e ->
    exn_class e <> TimeoutExpiredC ->
    stop_path E project_id h [EvTerminate h; EvWait h 5] false false
      (false, msg_stop_failed e)
| path_kill_failed e :
    terminate_result E = None -> timed_out (wait_result E) ->
    kill_result E = Some e ->
    stop_path E project_id h [EvTerminate h; EvWait h 5; EvKill h] false false
      (false, msg_stop_failed e)
| path_killed :
    terminate_result E = None -> timed_out (wait_result E) ->
    kill_result E = None -> update_result E = None ->
    stop_path E project_id h
      [EvTerminate h; EvWait h 5; EvKill h; EvUpdate project_id stopped_info]
      true true (true, msg_stopped)
| path_killed_update_failed e :
    terminate_result E = None -> timed_out (wait_result E) ->
    kill_result E = None -> update_result E = Some e ->
    stop_path E project_id h
      [EvTerminate h; EvWait h 5; EvKill h; EvUpdate project_id stopped_info]
      true false (false, msg_stop_failed e).

(** The state such a way leaves behind. *)
Definition after_stop (st : State) (project_id : string) (h : Handle)
    (t : list Event) (gone updated : bool) : State :=
  mkState (delete project_id (running_processes st))
          (if gone then alter exited h (procs st) else procs st)
          (files st)
          (if updated
           then <[project_id := stopped_info ∪ default ∅ (docs st !! project_id)]> (docs st)
           else docs st)
          (trace st ++ t).

(** The same notions as tests, to check a given command line. *)
Definition is_text_token_b (cps : list Z) : bool :=
  match cps with
  | [] => false
  | _ =>
      forallb (fun c =>
                 (((0 <=? c) && (c <? 55296)) || ((57344 <=? c) && (c <? 1114112)))
                 && negb (is_whitespace c)) cps
  end.

Fixpoint well_laid_b (items : list (list Z * list Z)) : bool :=
  match items with
  | [] => true
  | (token, gap) :: rest =>
      is_text_token_b token && forallb is_whitespace gap
      && (match rest, gap with _ :: _, [] => false | _, _ => true end)
      && well_laid_b rest
  end.

(** The code points of a text of ASCII characters. *)
Definition codes (s : string) : list Z :=
  (fun c => Z.of_nat (nat_of_ascii c)) <$> list_ascii_of_string s.

Module Example3.

(** A command line with a leading space, a double space, a no-break space
    (U+00A0), and an em space (U+2003) followed by a tab. *)
Definition lead : list Z := [32].

Definition items : list (list Z * list Z) :=
  [(codes "node", [32; 32]); (codes "app.py", [160]);
   (codes "--port", [8195; 9]); (codes "80", [])].

Definition project : Project :=
  mkProject (Some "/srv/p") (Some "demo") (Some (encode (lead ++ layout items)))
            (Some {[ "log_file" := VStr "/srv/p/out.log" ]}).

End Example3.

Module Example2.

(** The project has a [.env] file. *)
Definition st_dotenv : State :=
  mkState ∅ [] {[ "/srv/p/.venv/bin/python"; "/srv/p/.env" ]}
          {[ "p" := {[ "log_file" := VStr "/srv/p/out.log" ]} ]} [].

(** [.env] overrides [MODE] and adds [TOKEN]; [HOME] is inherited. *)
Definition E_dotenv : Env :=
  mkEnv {[ "HOME" := "/root"; "MODE" := "dev" ]} None
        (Ret {[ "MODE" := "prod"; "TOKEN" := "t0" ]}) (Ret 4242)
        (mkDatetime 2024 1 2 3 4 5) None
        None WaitExited None (Ret 93784000000)
        (Ret (mkSample 125 (3 * 1024 * 1024 + 131072))).

(** The child ignores the termination signal. *)
Definition E_stubborn : Env :=
  mkEnv ∅ None (Ret ∅) (Ret 4243) (mkDatetime 2024 1 2 3 4 6) None
        None WaitTimeout None (Ret 93784000000)
        (Ret (mkSample 125 (3 * 1024 * 1024 + 131072))).

(** The child stops, but the database is unreachable. *)
Definition E_stop_db_down : Env :=
  mkEnv ∅ None (Ret ∅) (Ret 4243) (mkDatetime 2024 1 2 3 4 6)
        (Some Example.boom)
        None WaitExited None (Ret 93784000000)
        (Ret (mkSample 125 (3 * 1024 * 1024 + 131072))).

(** The log file cannot be opened. *)
Definition E_no_log : Env :=
  mkEnv ∅ (Some Example.boom) (Ret ∅) (Ret 4242) (mkDatetime 2024 1 2 3 4 5)
        None None WaitExited None (Ret 93784000000)
        (Ret (mkSample 125 (3 * 1024 * 1024 + 131072))).

(** A project dict without its path. *)
Definition project_no_path : Project :=
  mkProject None (Some "demo") (Some "python main.py")
            (Some {[ "log_file" := VStr "/srv/p/out.log" ]}).

(** A project directory with its requirements and nothing else. *)
Definition st_bare : State * list Install.Run :=
  (mkState ∅ [] {[ "/srv/p/requirements.txt" ]} ∅ [], []).

(** [python3 -m venv] creates the runtime. *)
Definition venv_created : Install.Completed :=
  Install.mkCompleted 0 ""
    (fun fs => {[ "/srv/p/.venv"; "/srv/p/.venv/bin/python" ]} ∪ fs).

Definition nothing_changed (rc : Z) (err : string) : Install.Completed :=
  Install.mkCompleted rc err (fun fs => fs).

(** Everything works, although upgrading pip exits with an error code. *)
Definition I_ok : Install.InstallEnv :=
  Install.mkInstallEnv (Ret venv_created) (Ret (nothing_changed 1 "old pip"))
                       (Ret (nothing_changed 0 "")).


End Example2.

(** * Properties *)

(** ** Basic facts about the calls *)

Lemma lookup_new_proc (ps : list Proc) (p : Proc) :
  (ps ++ [p]) !! length ps = Some p.
Proof. by apply list_lookup_middle. Qed.

Lemma poll_new_proc st r fs d t p :
  alive p = true ->
  poll_is_None (mkState r (procs st ++ [p]) fs d t) (length (procs st)) = true.
Proof. intros Hp. unfold poll_is_None. simpl. by rewrite lookup_new_proc. Qed.

Lemma handle_pid_new_proc st r fs d t p :
  handle_pid (mkState r (procs st ++ [p]) fs d t) (length (procs st)) = pid p.
Proof. unfold handle_pid. simpl. by rewrite lookup_new_proc. Qed.

Lemma is_live_lookup st project_id process :
  running_processes st !! project_id = Some process ->
  is_live st project_id = poll_is_None st process.
Proof. intros H. unfold is_live. by rewrite H. Qed.

Lemma is_live_absent st project_id :
  running_processes st !! project_id = None -> is_live st project_id = false.
Proof. intros H. unfold is_live. by rewrite H. Qed.

Ltac run_monad :=
  unfold bind, ret, raise, try_except, try_except_class, getitem, path_exists,
    open_w, dotenv_values, Popen, register, get_pid,
    update_project_execution_info, terminate, wait, kill, sleep,
    sample_process in *.

(** How [start_project] runs once it is past the liveness check, the
    runtime marker, the log file and the [.env] file. *)
Lemma start_project_reaches_spawn E project_id project st
    project_path exec_info log_target user_env :
  is_live st project_id = false ->
  p_path project = Some project_path ->
  venv_python_of project_path ∈ files st ->
  p_execution_info project = Some exec_info ->
  exec_info !! "log_file" = Some log_target ->
  open_result E = None ->
  (if bool_decide (path_join project_path ".env" ∈
        match log_target with VStr f => {[f]} ∪ files st | _ => files st end)
   then dotenv_result E else Ret ∅) = Ret user_env ->
  start_project E project_id project st =
    match popen_result E with
    | Raise e =>
        (mkState (running_processes st) (procs st)
           (match log_target with VStr f => {[f]} ∪ files st | _ => files st end)
           (docs st)
           (trace st ++ [EvOpen log_target;
                         EvSpawn (run_cmd_of (venv_python_of project_path) project)
                                 project_path]),
         Ret (false, msg_execution_failed e))
    | Ret child =>
        let p := mkProc child (run_cmd_of (venv_python_of project_path) project)
                   project_path (user_env ∪ environ E) log_target true true in
        let st1 := spawned_state st project_id log_target p in
        let st2 := log_event (EvUpdate project_id (started_info child (utcnow E))) st1 in
        match update_result E with
        | Some e => (st2, Ret (false, msg_execution_failed e))
        | None =>
            (set_docs (<[project_id := started_info child (utcnow E)
                                        ∪ default ∅ (docs st !! project_id)]> (docs st)) st2,
             Ret (true, msg_started child))
        end
    end.
Proof.
  intros Hlive Hpath Hvenv Hinfo Hlog Hopen Henv.
  unfold start_project. rewrite Hlive, Hpath, Hinfo. run_monad. simpl.
  rewrite (bool_decide_eq_true_2 _ Hvenv). simpl.
  rewrite Hlog. simpl. rewrite Hopen.
  destruct log_target; simpl in *.
  all: unfold dotenv_values in *.
  all: match goal with
       | H : (if ?b then _ else _) = Ret _ |- _ => destruct b; simpl; rewrite ?H; simpl
       end.
  all: try (injection Henv as <-).
  all: destruct (popen_result E) as [child|e]; simpl.
  all: unfold handle_pid, spawned_state, log_event, set_docs; simpl.
  all: rewrite ?lookup_new_proc; simpl.
  all: try destruct (update_result E); simpl.
  all: by rewrite <- ?app_assoc.
Qed.

(** A start that reports success went all the way through the spawn and
    the database call. *)
Lemma start_project_success_inv E project_id project st st' m :
  start_project E project_id project st = (st', Ret (true, m)) ->
  exists project_path exec_info log_target user_env child,
    is_live st project_id = false /\
    p_path project = Some project_path /\
    venv_python_of project_path ∈ files st /\
    p_execution_info project = Some exec_info /\
    exec_info !! "log_file" = Some log_target /\
    open_result E = None /\
    (if bool_decide (path_join project_path ".env" ∈
          match log_target with VStr f => {[f]} ∪ files st | _ => files st end)
     then dotenv_result E else Ret ∅) = Ret user_env /\
    popen_result E = Ret child /\
    update_result E = None.
Proof.
  intros H. unfold start_project in H.
  destruct (is_live st project_id) eqn:Hlive; [congruence|].
  run_monad.
  destruct (p_path project) as [project_path|] eqn:Hpath; simpl in H; [|congruence].
  destruct (bool_decide (venv_python_of project_path ∈ files st)) eqn:Hvenv;
    simpl in H; [|congruence].
  apply bool_decide_eq_true_1 in Hvenv.
  destruct (p_execution_info project) as [exec_info|] eqn:Hinfo; simpl in H; [|congruence].
  destruct (exec_info !! "log_file") as [log_target|] eqn:Hlog; simpl in H; [|congruence].
  destruct (open_result E) eqn:Hopen; simpl in H; [congruence|].
  exists project_path, exec_info, log_target.
  destruct log_target; simpl in H |- *.
  all: match type of H with
       | context [bool_decide ?P] => destruct (bool_decide P); simpl in H
       end.
  all: try (destruct (dotenv_result E) as [user_env|] eqn:Henv; simpl in H; [|congruence]).
  all: destruct (popen_result E) as [child|] eqn:Hpopen; simpl in H; [|congruence].
  all: destruct (update_result E) eqn:Hupd; simpl in H; [congruence|].
  all: eexists _, child; by repeat split.
Qed.

(** No event of the wanted kind occurs in an explicit list of other events. *)
Ltac no_such_event :=
  let Hin := fresh "Hin" in
  intros ? ? Hin;
  repeat (apply elem_of_cons in Hin as [Hin|Hin]; [discriminate Hin|]);
  by apply elem_of_nil in Hin.

(** A start only appends to the trace, and every spawn it issues runs the
    command line [run_cmd_of] builds, in the project's directory. *)
Lemma start_project_events E project_id project st :
  exists t,
    trace (fst (start_project E project_id project st)) = trace st ++ t /\
    forall cmd dir, EvSpawn cmd dir ∈ t ->
      exists project_path,
        p_path project = Some project_path /\
        dir = project_path /\
        cmd = run_cmd_of (venv_python_of project_path) project.
Proof.
  unfold start_project.
  destruct (is_live st project_id).
  { exists []. split; [by rewrite app_nil_r | no_such_event]. }
  run_monad.
  destruct (p_path project) as [project_path|]; simpl;
    [|exists []; split; [by rewrite app_nil_r | no_such_event]].
  destruct (bool_decide (venv_python_of project_path ∈ files st)); simpl;
    [|exists []; split; [by rewrite app_nil_r | no_such_event]].
  destruct (p_execution_info project) as [exec_info|]; simpl;
    [|exists []; split; [by rewrite app_nil_r | no_such_event]].
  destruct (exec_info !! "log_file") as [log_target|]; simpl;
    [|exists []; split; [by rewrite app_nil_r | no_such_event]].
  destruct (open_result E); simpl;
    [eexists [_]; split; [reflexivity | no_such_event]|].
  assert (Hspawn : forall cmd dir tl,
    EvSpawn cmd dir ∈ EvOpen log_target ::
      EvSpawn (run_cmd_of (venv_python_of project_path) project) project_path :: tl ->
    (forall c d, EvSpawn c d ∉ tl) ->
    exists pp, Some project_path = Some pp /\ dir = pp /\
               cmd = run_cmd_of (venv_python_of pp) project).
  { intros cmd dir tl Hin Htl. exists project_path.
    rewrite !elem_of_cons in Hin. destruct Hin as [?|[?|Hin]]; [done| |].
    - by simplify_eq.
    - by apply Htl in Hin. }
  destruct log_target; simpl.
  all: match goal with
       | |- context [bool_decide ?P] => destruct (bool_decide P); simpl
       end.
  all: try (destruct (dotenv_result E) as [user_env|]; simpl;
            [|eexists [_]; split; [reflexivity | no_such_event]]).
  all: destruct (popen_result E) as [child|]; simpl.
  all: try destruct (update_result E); simpl.
  all: rewrite <- ?app_assoc; simpl.
  all: eexists; (split; [reflexivity|]).
  all: intros cmd dir Hin; eapply Hspawn; [exact Hin|]; no_such_event.
Qed.

Lemma poll_set_running_processes r st process :
  poll_is_None (set_running_processes r st) process = poll_is_None st process.
Proof. reflexivity. Qed.

(** What a stop does, case by case: the registry loses the entry, the trace
    only grows, and the caller gets one of four answers. *)
Lemma stop_project_outcome E project_id st :
  let st' := fst (stop_project E project_id st) in
  let r := snd (stop_project E project_id st) in
  running_processes st' = delete project_id (running_processes st) /\
  files st' = files st /\
  (exists t, trace st' = trace st ++ t /\ forall cmd dir, EvSpawn cmd dir ∉ t) /\
  match running_processes st !! project_id with
  | None => st' = st /\ r = Ret (false, msg_not_running)
  | Some process =>
      if poll_is_None st process
      then r = Ret (true, msg_stopped) \/ exists e, r = Ret (false, msg_stop_failed e)
      else st' = set_running_processes (delete project_id (running_processes st)) st /\
           r = Ret (false, msg_already_stopped)
  end.
Proof.
  unfold stop_project.
  destruct (running_processes st !! project_id) as [process|] eqn:Hreg; simpl.
  2: { rewrite delete_id by done. repeat split.
       exists []. split; [by rewrite app_nil_r | no_such_event]. }
  rewrite poll_set_running_processes.
  destruct (poll_is_None st process); simpl.
  2: { repeat split. exists []. split; [by rewrite app_nil_r | no_such_event]. }
  run_monad. simpl.
  destruct (terminate_result E); simpl.
  { repeat split; [|eauto]. eexists [_]. split; [reflexivity | no_such_event]. }
  destruct (wait_result E) as [| |e]; simpl.
  - destruct (update_result E); simpl; (repeat split; [|eauto]).
    all: rewrite <- ?app_assoc; simpl.
    all: eexists; (split; [reflexivity | no_such_event]).
  - destruct (kill_result E); simpl; [|destruct (update_result E); simpl].
    all: repeat split; [|eauto].
    all: rewrite <- ?app_assoc; simpl.
    all: eexists; (split; [reflexivity | no_such_event]).
  - destruct (decide (exn_class e = TimeoutExpiredC)); simpl.
    + destruct (kill_result E); simpl; [|destruct (update_result E); simpl].
      all: repeat split; [|eauto].
      all: rewrite <- ?app_assoc; simpl.
      all: eexists; (split; [reflexivity | no_such_event]).
    + repeat split; [|eauto].
      rewrite <- ?app_assoc; simpl.
      eexists; (split; [reflexivity | no_such_event]).
Qed.

(** The answers of a start: "already running" exactly when the registry
    holds a live entry, otherwise one of the three answers of the guarded
    block.  In particular the call returns, it does not raise. *)
Lemma start_project_results E project_id project st :
  let r := snd (start_project E project_id project st) in
  (is_live st project_id = true /\ r = Ret (false, msg_already_running)) \/
  (is_live st project_id = false /\
   (r = Ret (false, msg_venv_missing) \/
    (exists e, r = Ret (false, msg_execution_failed e)) \/
    (exists child, r = Ret (true, msg_started child)))).
Proof.
  unfold start_project.
  destruct (is_live st project_id); [by left|right; split; [done|]].
  run_monad.
  destruct (p_path project) as [project_path|]; simpl; [|eauto].
  destruct (bool_decide (venv_python_of project_path ∈ files st)); simpl; [|eauto].
  destruct (p_execution_info project) as [exec_info|]; simpl; [|eauto].
  destruct (exec_info !! "log_file") as [log_target|]; simpl; [|eauto].
  destruct (open_result E); simpl; [eauto|].
  destruct log_target; simpl.
  all: match goal with
       | |- context [bool_decide ?P] => destruct (bool_decide P); simpl
       end.
  all: try (destruct (dotenv_result E) as [user_env|]; simpl; [|eauto]).
  all: destruct (popen_result E) as [child|]; simpl; [|eauto].
  all: destruct (update_result E); simpl; eauto.
Qed.

Lemma msg_venv_missing_not_already_running :
  msg_venv_missing <> msg_already_running.
Proof. discriminate. Qed.

Lemma msg_execution_failed_not_already_running e :
  msg_execution_failed e <> msg_already_running.
Proof. unfold msg_execution_failed, msg_already_running. simpl. discriminate. Qed.

(** ** The tokens of the launch command *)

Lemma string_app_cons c (s t : string) : String c s +:+ t = String c (s +:+ t).
Proof. reflexivity. Qed.

Lemma string_app_nil_l (s : string) : "" +:+ s = s.
Proof. reflexivity. Qed.

Lemma string_app_nil_r (s : string) : s +:+ "" = s.
Proof.
  induction s as [|c s IH]; [reflexivity|].
  rewrite string_app_cons. congruence.
Qed.

Lemma string_app_assoc (s t u : string) : (s +:+ t) +:+ u = s +:+ (t +:+ u).
Proof.
  induction s as [|c s IH]; [reflexivity|].
  rewrite !string_app_cons. congruence.
Qed.

Lemma has_space_app (s t : string) :
  has_space (s +:+ t) = has_space s || has_space t.
Proof.
  induction s as [|c s IH]; [reflexivity|].
  rewrite string_app_cons. simpl. rewrite IH. by destruct (is_space c).
Qed.

Lemma string_length_app (s t : string) :
  String.length (s +:+ t) = (String.length s + String.length t)%nat.
Proof.
  induction s as [|c s IH]; [reflexivity|].
  rewrite string_app_cons. simpl. by rewrite IH.
Qed.

(** *** Separators, byte by byte *)

Lemma space2_lead n1 n2 : space2 n1 n2 = true -> space_lead n1 = true.
Proof.
  unfold space2, space_lead. intros [H _]%andb_prop. by rewrite H.
Qed.

Lemma space3_lead_lead n1 n2 : space3_lead n1 n2 = true -> space_lead n1 = true.
Proof.
  unfold space3_lead, space_lead.
  destruct (n1 =? 194)%nat, (n1 =? 225)%nat, (n1 =? 226)%nat, (n1 =? 227)%nat;
    simpl; congruence.
Qed.

Lemma space3_space3_lead n1 n2 n3 :
  space3 n1 n2 n3 = true -> space3_lead n1 n2 = true.
Proof.
  unfold space3, space3_lead.
  destruct (n1 =? 225)%nat, (n1 =? 226)%nat, (n1 =? 227)%nat,
    (n2 =? 154)%nat, (n2 =? 128)%nat, (n2 =? 129)%nat; simpl; congruence.
Qed.

Lemma is_space_not_lead c : is_space c = true -> space_lead (nat_of_ascii c) = false.
Proof.
  unfold is_space, space_lead. intros H.
  apply orb_prop in H as [[H1 H2]%andb_prop|[H1 H2]%andb_prop];
    apply Nat.leb_le in H1, H2.
  all: repeat (apply orb_false_intro); apply Nat.eqb_neq; lia.
Qed.

(** A text that cannot start a separator does not start one, whatever is
    put behind it. *)
Lemma may_start_space_width (u rest : string) :
  u <> "" -> may_start_space u = false -> space_width (u +:+ rest) = 0%nat.
Proof.
  destruct u as [|c1 u1]; [done|]. intros _ H.
  rewrite string_app_cons. simpl in *.
  apply orb_false_elim in H as [Hc1 H]. rewrite Hc1.
  destruct u1 as [|c2 u2].
  - rewrite string_app_nil_l. destruct rest as [|c2 r2]; [done|].
    destruct (space2 _ _) eqn:H2; [apply space2_lead in H2; congruence|].
    destruct r2 as [|c3 r3]; [done|].
    destruct (space3 _ _ _) eqn:H3; [|done].
    apply space3_space3_lead, space3_lead_lead in H3. congruence.
  - rewrite string_app_cons. apply orb_false_elim in H as [H2 H]. rewrite H2.
    destruct u2 as [|c3 u3].
    + rewrite string_app_nil_l. destruct rest as [|c3 r3]; [done|].
      destruct (space3 _ _ _) eqn:H3; [|done].
      apply space3_space3_lead in H3. congruence.
    + rewrite string_app_cons. by rewrite H.
Qed.

Lemma may_start_space_app (u v : string) :
  u <> "" -> may_start_space u = false -> may_start_space (u +:+ v) = false.
Proof.
  destruct u as [|c1 u1]; [done|]. intros _ H.
  rewrite string_app_cons. simpl in *.
  apply orb_false_elim in H as [Hc1 H]. rewrite Hc1. simpl.
  destruct u1 as [|c2 u2].
  - rewrite string_app_nil_l. destruct v as [|c2 v2]; [done|].
    destruct (space2 _ _) eqn:H2; [apply space2_lead in H2; congruence|]. simpl.
    destruct v2 as [|c3 v3].
    + destruct (space3_lead _ _) eqn:H3; [|done].
      apply space3_lead_lead in H3. congruence.
    + destruct (space3 _ _ _) eqn:H3; [|done].
      apply space3_space3_lead, space3_lead_lead in H3. congruence.
  - rewrite string_app_cons. apply orb_false_elim in H as [H2 H]. rewrite H2.
    simpl. destruct u2 as [|c3 u3].
    + rewrite string_app_nil_l. destruct v as [|c3 v3]; [done|].
      destruct (space3 _ _ _) eqn:H3; [|done].
      apply space3_space3_lead in H3. congruence.
    + by rewrite string_app_cons.
Qed.

Lemma clean_app (t1 t2 : string) :
  clean t1 = true -> clean t2 = true -> clean (t1 +:+ t2) = true.
Proof.
  induction t1 as [|c t1 IH]; [done|]. intros H1 H2.
  rewrite string_app_cons.
  change (negb (may_start_space (String c t1)) && clean t1 = true) in H1.
  change (negb (may_start_space (String c (t1 +:+ t2))) && clean (t1 +:+ t2) = true).
  apply andb_prop in H1 as [Hm Hc]. apply negb_true_iff in Hm.
  rewrite <- string_app_cons, (may_start_space_app (String c t1) t2 ltac:(done) Hm).
  simpl.
  by apply IH.
Qed.

(** *** Reading tokens and separators *)

(** A stretch in which no separator starts is added to the token being
    read. *)
Lemma split_go_clean (t rest cur : string) :
  clean t = true -> split_go 0 cur (t +:+ rest) = split_go 0 (cur +:+ t) rest.
Proof.
  revert cur. induction t as [|c t IH]; intros cur Ht.
  - by rewrite string_app_nil_l, string_app_nil_r.
  - change (negb (may_start_space (String c t)) && clean t = true) in Ht.
    apply andb_prop in Ht as [Hm Hc]. apply negb_true_iff in Hm.
    pose proof (may_start_space_width (String c t) rest ltac:(done) Hm) as Hw.
    rewrite string_app_cons in Hw |- *.
    change (split_go 0 cur (String c (t +:+ rest)))
      with (match space_width (String c (t +:+ rest)) with
            | O => split_go 0 (cur +:+ String c "") (t +:+ rest)
            | S k => flush cur ++ split_go k "" (t +:+ rest)
            end).
    rewrite Hw, (IH _ Hc). by rewrite string_app_assoc.
Qed.

(** The bytes of a separator still to be passed over are passed over. *)
Lemma split_go_skip (w rest cur : string) :
  split_go (String.length w) cur (w +:+ rest) = split_go 0 cur rest.
Proof.
  induction w as [|c w IH]; [by rewrite string_app_nil_l|].
  rewrite string_app_cons. simpl. exact IH.
Qed.

Lemma space_width_app (w rest : string) :
  is_space_char w -> space_width (w +:+ rest) = String.length w.
Proof.
  intros [Hne Hw]. destruct w as [|c1 w1]; [done|].
  rewrite string_app_cons. simpl in *.
  destruct (is_space c1); [done|].
  destruct w1 as [|c2 w2]; [done|]. rewrite string_app_cons.
  destruct (space2 _ _); [done|].
  destruct w2 as [|c3 w3]; [done|]. rewrite string_app_cons.
  destruct (space3 _ _ _); [|done].
  destruct w3; [done|]. simpl in Hw. lia.
Qed.

(** A separator ends the token being read. *)
Lemma split_go_space_char (w rest cur : string) :
  is_space_char w ->
  split_go 0 cur (w +:+ rest) = flush cur ++ split_go 0 "" rest.
Proof.
  intros Hw. pose proof (space_width_app w rest Hw) as Hwidth.
  destruct Hw as [Hne _]. destruct w as [|c w]; [done|].
  rewrite string_app_cons in Hwidth |- *.
  change (split_go 0 cur (String c (w +:+ rest)))
    with (match space_width (String c (w +:+ rest)) with
          | O => split_go 0 (cur +:+ String c "") (w +:+ rest)
          | S k => flush cur ++ split_go k "" (w +:+ rest)
          end).
  rewrite Hwidth. simpl. by rewrite split_go_skip.
Qed.

Lemma space_width_zero_not_space c s :
  space_width (String c s) = 0%nat -> is_space c = false.
Proof. simpl. by destruct (is_space c). Qed.

(** Whatever is read, the outcome is tokens only. *)
Lemma split_go_tokens (s cur : string) (skip : nat) :
  has_space cur = false -> Forall is_token (split_go skip cur s).
Proof.
  assert (Hflush : forall cur, has_space cur = false -> Forall is_token (flush cur)).
  { intros c Hc. unfold flush. destruct (decide (c = "")); [constructor|].
    constructor; [by split|constructor]. }
  revert cur skip. induction s as [|c s IH]; intros cur skip Hcur.
  - simpl. by apply Hflush.
  - destruct skip as [|k]; [|simpl; by apply IH].
    change (split_go 0 cur (String c s))
      with (match space_width (String c s) with
            | O => split_go 0 (cur +:+ String c "") s
            | S k => flush cur ++ split_go k "" s
            end).
    destruct (space_width (String c s)) eqn:Hw.
    + apply IH. rewrite has_space_app. simpl.
      by rewrite Hcur, (space_width_zero_not_space _ _ Hw).
    + apply Forall_app. split; [by apply Hflush|by apply IH].
Qed.

(** One-byte separators alone produce no token. *)
Lemma split_go_blank (s : string) : blank s = true -> split_go 0 "" s = [].
Proof.
  induction s as [|c s IH]; [done|].
  simpl blank. intros [Hc Hs]%andb_prop.
  change (split_go 0 "" (String c s))
    with (match space_width (String c s) with
          | O => split_go 0 ("" +:+ String c "") s
          | S k => flush "" ++ split_go k "" s
          end).
  simpl space_width. rewrite Hc. simpl. by apply IH.
Qed.

(** *** Code points and their bytes *)

Lemma byte_code (z : Z) : 0 <= z < 256 -> nat_of_ascii (byte z) = Z.to_nat z.
Proof. intros Hz. unfold byte. apply nat_ascii_embedding. lia. Qed.

Lemma is_whitespace_spec (c : Z) :
  is_whitespace c = true <->
  9 <= c <= 13 \/ 28 <= c <= 32 \/ c = 133 \/ c = 160 \/ c = 5760 \/
  8192 <= c <= 8202 \/ c = 8232 \/ c = 8233 \/ c = 8239 \/ c = 8287 \/ c = 12288.
Proof.
  unfold is_whitespace.
  repeat (rewrite orb_true_iff || rewrite andb_true_iff).
  rewrite !Z.leb_le, !Z.eqb_eq. tauto.
Qed.

Lemma is_space_spec (c : ascii) :
  is_space c = true <->
  (9 <= nat_of_ascii c <= 13)%nat \/ (28 <= nat_of_ascii c <= 32)%nat.
Proof.
  unfold is_space. cbv zeta.
  rewrite orb_true_iff, !andb_true_iff, !Nat.leb_le. tauto.
Qed.

Lemma space_lead_spec n1 :
  space_lead n1 = true <-> (n1 = 194 \/ n1 = 225 \/ n1 = 226 \/ n1 = 227)%nat.
Proof. unfold space_lead. rewrite !orb_true_iff, !Nat.eqb_eq. tauto. Qed.

Lemma space2_spec n1 n2 :
  space2 n1 n2 = true <-> (n1 = 194 /\ (n2 = 133 \/ n2 = 160))%nat.
Proof.
  unfold space2. rewrite andb_true_iff, orb_true_iff, !Nat.eqb_eq. tauto.
Qed.

Lemma space3_lead_spec n1 n2 :
  space3_lead n1 n2 = true <->
  ((n1 = 225 /\ n2 = 154) \/ (n1 = 226 /\ (n2 = 128 \/ n2 = 129)) \/
   (n1 = 227 /\ n2 = 128))%nat.
Proof.
  unfold space3_lead.
  repeat (rewrite orb_true_iff || rewrite andb_true_iff).
  rewrite !Nat.eqb_eq. tauto.
Qed.

Lemma space3_spec n1 n2 n3 :
  space3 n1 n2 n3 = true <->
  ((n1 = 225 /\ n2 = 154 /\ n3 = 128) \/
   (n1 = 226 /\ n2 = 128 /\
    (128 <= n3 <= 138 \/ n3 = 168 \/ n3 = 169 \/ n3 = 175)) \/
   (n1 = 226 /\ n2 = 129 /\ n3 = 159) \/
   (n1 = 227 /\ n2 = 128 /\ n3 = 128))%nat.
Proof.
  unfold space3.
  repeat (rewrite orb_true_iff || rewrite andb_true_iff).
  rewrite !Nat.leb_le, !Nat.eqb_eq. tauto.
Qed.

(** A byte that is no one-byte separator and does not begin a longer one
    cannot start a separator. *)
Lemma may_start_space_other c1 u :
  is_space c1 = false -> space_lead (nat_of_ascii c1) = false ->
  may_start_space (String c1 u) = false.
Proof.
  intros Hs Hl. simpl. rewrite Hs. simpl.
  destruct u as [|c2 u2]; [done|].
  destruct (space2 _ _) eqn:H2; [apply space2_lead in H2; congruence|]. simpl.
  destruct u2 as [|c3 u3].
  - destruct (space3_lead _ _) eqn:H3; [|done].
    apply space3_lead_lead in H3. congruence.
  - destruct (space3 _ _ _) eqn:H3; [|done].
    apply space3_space3_lead, space3_lead_lead in H3. congruence.
Qed.

(** The bytes 0x80..0xBF and 0xF0.. of an encoding start no separator. *)
Lemma may_start_space_byte z u :
  128 <= z < 256 -> z <> 194 -> z <> 225 -> z <> 226 -> z <> 227 ->
  may_start_space (String (byte z) u) = false.
Proof.
  intros Hz H1 H2 H3 H4. apply may_start_space_other.
  - apply not_true_iff_false. rewrite is_space_spec, byte_code by lia. lia.
  - apply not_true_iff_false. rewrite space_lead_spec, byte_code by lia. lia.
Qed.

Ltac div_lia := Z.to_euclidean_division_equations; lia.

Lemma encode_char_clean (c : Z) :
  is_scalar c -> is_whitespace c = false -> clean (encode_char c) = true.
Proof.
  intros Hscalar Hws. apply not_true_iff_false in Hws.
  rewrite is_whitespace_spec in Hws. unfold encode_char.
  destruct (Z.ltb_spec c 128) as [H1|H1];
    [|destruct (Z.ltb_spec c 2048) as [H2|H2];
      [|destruct (Z.ltb_spec c 65536) as [H3|H3]]].
  - (* one byte *)
    assert (Hc : 0 <= c < 128) by (destruct Hscalar; lia).
    change (negb (may_start_space (String (byte c) "")) && true = true).
    rewrite may_start_space_other; [done| |].
    + apply not_true_iff_false. rewrite is_space_spec, byte_code by lia. lia.
    + apply not_true_iff_false. rewrite space_lead_spec, byte_code by lia. lia.
  - (* two bytes *)
    assert (Hb1 : 194 <= 192 + c / 64 < 224) by div_lia.
    assert (Hb2 : 128 <= 128 + c mod 64 < 192) by div_lia.
    set (b1 := 192 + c / 64) in *. set (b2 := 128 + c mod 64) in *.
    change (negb (may_start_space (String (byte b1) (String (byte b2) "")))
            && (negb (may_start_space (String (byte b2) "")) && true) = true).
    rewrite (may_start_space_byte b2) by lia.
    assert (Hfirst : may_start_space (String (byte b1) (String (byte b2) "")) = false).
    { simpl. rewrite !byte_code by lia.
      apply not_true_iff_false.
      rewrite !orb_true_iff, is_space_spec, space2_spec, byte_code by lia.
      intros [Hbad|[Hbad|Hbad]]; [subst b1 b2; div_lia..|].
      apply space3_lead_spec in Hbad. lia. }
    by rewrite Hfirst.
  - (* three bytes *)
    assert (Hb1 : 224 <= 224 + c / 4096 < 240) by div_lia.
    assert (Hb2 : 128 <= 128 + (c / 64) mod 64 < 192) by div_lia.
    assert (Hb3 : 128 <= 128 + c mod 64 < 192) by div_lia.
    set (b1 := 224 + c / 4096) in *. set (b2 := 128 + (c / 64) mod 64) in *.
    set (b3 := 128 + c mod 64) in *.
    change (negb (may_start_space
                    (String (byte b1) (String (byte b2) (String (byte b3) ""))))
            && (negb (may_start_space (String (byte b2) (String (byte b3) "")))
                && (negb (may_start_space (String (byte b3) "")) && true)) = true).
    rewrite (may_start_space_byte b2), (may_start_space_byte b3) by lia.
    assert (Hfirst : may_start_space
              (String (byte b1) (String (byte b2) (String (byte b3) ""))) = false).
    { simpl. rewrite !byte_code by lia.
      apply not_true_iff_false.
      rewrite !orb_true_iff, is_space_spec, space2_spec, space3_spec,
        byte_code by lia.
      subst b1 b2 b3. intros [Hbad|[Hbad|Hbad]]; div_lia. }
    by rewrite Hfirst.
  - (* four bytes *)
    assert (Hc : 65536 <= c < 1114112) by (destruct Hscalar; lia).
    assert (Hb1 : 240 <= 240 + c / 262144 < 245) by div_lia.
    assert (Hb2 : 128 <= 128 + (c / 4096) mod 64 < 192) by div_lia.
    assert (Hb3 : 128 <= 128 + (c / 64) mod 64 < 192) by div_lia.
    assert (Hb4 : 128 <= 128 + c mod 64 < 192) by div_lia.
    set (b1 := 240 + c / 262144) in *. set (b2 := 128 + (c / 4096) mod 64) in *.
    set (b3 := 128 + (c / 64) mod 64) in *. set (b4 := 128 + c mod 64) in *.
    change (negb (may_start_space
                    (String (byte b1) (String (byte b2)
                       (String (byte b3) (String (byte b4) "")))))
            && (negb (may_start_space
                        (String (byte b2) (String (byte b3) (String (byte b4) ""))))
                && (negb (may_start_space (String (byte b3) (String (byte b4) "")))
                    && (negb (may_start_space (String (byte b4) "")) && true)))
            = true).
    by rewrite (may_start_space_byte b1), (may_start_space_byte b2),
      (may_start_space_byte b3), (may_start_space_byte b4) by lia.
Qed.

Lemma encode_char_nonempty (c : Z) : encode_char c <> "".
Proof.
  unfold encode_char.
  destruct (c <? 128); [done|]. destruct (c <? 2048); [done|].
  by destruct (c <? 65536).
Qed.

Lemma encode_app (a b : list Z) : encode (a ++ b) = encode a +:+ encode b.
Proof.
  induction a as [|c a IH]; [done|].
  simpl. by rewrite IH, string_app_assoc.
Qed.

Lemma encode_nonempty (cps : list Z) : cps <> [] -> encode cps <> "".
Proof.
  destruct cps as [|c cps]; [done|]. intros _ Hbad. simpl in Hbad.
  pose proof (encode_char_nonempty c) as Hc.
  destruct (encode_char c); [done|]. by rewrite string_app_cons in Hbad.
Qed.

(** The bytes of a token as Python sees it: no separator starts in them. *)
Lemma encode_token_clean (cps : list Z) :
  Forall (fun c => is_scalar c /\ is_whitespace c = false) cps ->
  clean (encode cps) = true.
Proof.
  induction 1 as [|c cps [Hs Hw] _ IH]; [done|].
  simpl. apply clean_app; [by apply encode_char_clean|done].
Qed.

Lemma is_whitespace_table (c : Z) :
  is_whitespace c = true <-> c ∈ whitespace_table.
Proof.
  rewrite is_whitespace_spec. unfold whitespace_table.
  rewrite !elem_of_cons, elem_of_nil. lia.
Qed.

(** The bytes of a whitespace code point are exactly one separator. *)
Lemma encode_whitespace (c : Z) :
  is_whitespace c = true -> is_space_char (encode_char c).
Proof.
  rewrite is_whitespace_table.
  assert (Hall : Forall (fun c => is_space_char (encode_char c)) whitespace_table).
  { unfold whitespace_table.
    repeat (constructor; [split; [discriminate|vm_compute; reflexivity]|]).
    constructor. }
  rewrite Forall_forall in Hall. apply Hall.
Qed.

(** A run of whitespace ends the token being read, if there is any
    whitespace in it. *)
Lemma split_go_gap (gap : list Z) (rest cur : string) :
  is_text_gap gap ->
  split_go 0 cur (encode gap +:+ rest)
    = match gap with
      | [] => split_go 0 cur rest
      | _ => flush cur ++ split_go 0 "" rest
      end.
Proof.
  intros Hgap. revert cur.
  induction Hgap as [|c gap Hc Hgap IH]; intros cur; [done|].
  simpl encode. rewrite string_app_assoc.
  rewrite (split_go_space_char _ _ _ (encode_whitespace c Hc)).
  rewrite IH. by destruct gap.
Qed.

Lemma flush_token (cps : list Z) : cps <> [] -> flush (encode cps) = [encode cps].
Proof.
  intros Hne. unfold flush.
  destruct (decide (encode cps = "")) as [Hbad|]; [|done].
  by apply encode_nonempty in Hbad.
Qed.

(** Splitting a command line that is written out as tokens and gaps gives
    back the tokens. *)
Lemma split_go_layout (items : list (list Z * list Z)) :
  well_laid items -> split_go 0 "" (encode (layout items)) = encode <$> items.*1.
Proof.
  induction items as [|[token gap] rest IH]; [done|].
  intros ([Hne Htok] & Hgap & Hlast & Hrest).
  simpl layout. rewrite !encode_app.
  rewrite (split_go_clean _ _ _ (encode_token_clean _ Htok)), string_app_nil_l.
  rewrite (split_go_gap _ _ _ Hgap). simpl.
  destruct gap as [|c gap].
  - destruct rest as [|item rest]; [|by destruct Hlast].
    simpl. by apply flush_token.
  - rewrite (flush_token _ Hne). simpl. by rewrite IH.
Qed.

Lemma split_layout (lead : list Z) (items : list (list Z * list Z)) :
  is_text_gap lead -> well_laid items ->
  split (encode (lead ++ layout items)) = encode <$> items.*1.
Proof.
  intros Hlead Hitems. unfold split. rewrite encode_app.
  rewrite (split_go_gap _ _ _ Hlead).
  change (flush "") with (@nil string).
  rewrite <- (split_go_layout _ Hitems). by destruct lead.
Qed.

(** Tokens joined by single spaces. *)
Lemma split_join_spaces (tokens : list (list Z)) :
  Forall is_text_token tokens ->
  split (join_spaces (encode <$> tokens)) = encode <$> tokens.
Proof.
  unfold split. induction 1 as [|t rest [Hne Htok] Hrest IH]; [done|].
  destruct rest as [|t' rest'].
  - simpl. rewrite <- (string_app_nil_r (encode t)) at 1.
    rewrite (split_go_clean _ _ _ (encode_token_clean _ Htok)), string_app_nil_l.
    simpl. by apply flush_token.
  - change (join_spaces (encode <$> t :: t' :: rest'))
      with (encode t +:+ " " +:+ join_spaces (encode <$> t' :: rest')).
    rewrite (split_go_clean _ _ _ (encode_token_clean _ Htok)), string_app_nil_l.
    rewrite (split_go_space_char " "); [|by split].
    rewrite (flush_token _ Hne). simpl. f_equal. exact IH.
Qed.

(** Every text is laid out in exactly this way: whitespace, then tokens
    each followed by whitespace. *)
Lemma text_is_laid_out (cps : list Z) :
  Forall is_scalar cps ->
  exists lead items,
    is_text_gap lead /\ well_laid items /\ cps = lead ++ layout items.
Proof.
  induction 1 as [|c cps Hc _ (lead & items & Hlead & Hlaid & ->)].
  - exists [], []. split; [constructor|]. split; [exact I|reflexivity].
  - destruct (is_whitespace c) eqn:Hw.
    { exists (c :: lead), items. split; [by constructor|]. done. }
    assert (Hone : is_text_token [c]).
    { split; [done|]. constructor; [done|constructor]. }
    destruct lead as [|l lead].
    + destruct items as [|[token gap] rest].
      * exists [], [([c], [])]. split; [constructor|]. split; [|done].
        split; [exact Hone|]. split; [constructor|]. by split.
      * destruct Hlaid as ((Hne & Hall) & Hgap & Hlast & Hrest).
        exists [], ((c :: token, gap) :: rest). split; [constructor|].
        split; [|done]. split; [|done]. split; [done|]. by constructor.
    + exists [], (([c], l :: lead) :: items). split; [constructor|].
      split; [|done]. split; [exact Hone|]. split; [exact Hlead|]. by split.
Qed.

Lemma well_laid_tokens (items : list (list Z * list Z)) :
  well_laid items -> Forall is_text_token items.*1.
Proof.
  induction items as [|[token gap] rest IH]; [constructor|].
  intros (Htoken & _ & _ & Hrest). constructor; [exact Htoken|by apply IH].
Qed.

(** *** Checking a given command line *)

Lemma is_text_token_b_sound (cps : list Z) :
  is_text_token_b cps = true -> is_text_token cps.
Proof.
  unfold is_text_token_b, is_text_token. intros H.
  split; [by destruct cps|].
  assert (Hall : forallb (fun c =>
             (((0 <=? c) && (c <? 55296)) || ((57344 <=? c) && (c <? 1114112)))
             && negb (is_whitespace c)) cps = true) by (by destruct cps).
  clear H. induction cps as [|c cps IH]; [constructor|].
  simpl in Hall. apply andb_prop in Hall as [Hc Hall].
  constructor; [|by apply IH].
  apply andb_prop in Hc as [Hs Hw]. split; [|by apply negb_true_iff].
  unfold is_scalar.
  apply orb_prop in Hs as [[H1 H2]%andb_prop|[H1 H2]%andb_prop]; lia.
Qed.

Lemma is_text_gap_b_sound (gap : list Z) :
  forallb is_whitespace gap = true -> is_text_gap gap.
Proof.
  unfold is_text_gap. induction gap as [|c gap IH]; [constructor|].
  simpl. intros [Hc Hgap]%andb_prop. constructor; [done|by apply IH].
Qed.

Lemma well_laid_b_sound (items : list (list Z * list Z)) :
  well_laid_b items = true -> well_laid items.
Proof.
  induction items as [|[token gap] rest IH]; [done|].
  simpl. intros [[[Ht Hg]%andb_prop Hl]%andb_prop Hr]%andb_prop.
  split; [by apply is_text_token_b_sound|].
  split; [by apply is_text_gap_b_sound|]. split; [|by apply IH].
  intros Hrest ->. by destruct rest.
Qed.

(** *** The interpreter of the isolated runtime *)

Lemma ends_with_slash_app (s t : string) :
  t <> "" -> ends_with_slash (s +:+ t) = ends_with_slash t.
Proof.
  intros Ht. induction s as [|c s IH]; [done|].
  rewrite string_app_cons. simpl.
  destruct (s +:+ t) eqn:Hst; [|done].
  destruct s; [by rewrite string_app_nil_l in Hst|by rewrite string_app_cons in Hst].
Qed.

Lemma string_app_not_empty_r (s t : string) : t <> "" -> s +:+ t <> "".
Proof.
  intros Ht Hbad. destruct s; [by rewrite string_app_nil_l in Hbad|].
  by rewrite string_app_cons in Hbad.
Qed.

Lemma path_join_relative (a b : string) c b' :
  b = String c b' -> c <> "/"%char ->
  path_join a b
    = if decide (a = "") then b
      else if ends_with_slash a then a +:+ b else a +:+ "/" +:+ b.
Proof.
  intros -> Hc. unfold path_join.
  destruct c as [[] [] [] [] [] [] [] []]; try reflexivity. by destruct Hc.
Qed.

Lemma venv_python_of_spelled_out (project_path : string) :
  venv_python_of project_path
    = if decide (project_path = "") then ".venv/bin/python"
      else if ends_with_slash project_path
           then project_path +:+ ".venv/bin/python"
           else project_path +:+ "/.venv/bin/python".
Proof.
  unfold venv_python_of.
  rewrite (path_join_relative project_path ".venv" "."%char "venv") by done.
  assert (Hstep : forall dir name c name',
    name = String c name' -> c <> "/"%char ->
    dir <> "" -> ends_with_slash dir = false ->
    path_join dir name = dir +:+ "/" +:+ name).
  { intros dir name c name' Hname Hc Hdir Hslash.
    rewrite (path_join_relative dir name c name' Hname Hc), Hslash.
    by destruct (decide (dir = "")). }
  destruct (decide (project_path = "")) as [->|Hne].
  - reflexivity.
  - destruct (ends_with_slash project_path) eqn:Hslash.
    + rewrite (Hstep (project_path +:+ ".venv") "bin" "b"%char "in");
        [|done|done|by apply string_app_not_empty_r
         |by rewrite ends_with_slash_app].
      rewrite (Hstep _ "python" "p"%char "ython");
        [|done|done|by apply string_app_not_empty_r
         |by rewrite !ends_with_slash_app].
      by rewrite !string_app_assoc.
    + rewrite (Hstep (project_path +:+ "/" +:+ ".venv") "bin" "b"%char "in");
        [|done|done|by apply string_app_not_empty_r
         |by rewrite ends_with_slash_app].
      rewrite (Hstep _ "python" "p"%char "ython");
        [|done|done|by apply string_app_not_empty_r
         |by rewrite !ends_with_slash_app].
      by rewrite !string_app_assoc.
Qed.


(** ** The claims *)

(** C1: for every project at most one live registered process.  A start
    on a registry entry whose process is alive answers "already running" and
    changes nothing, so it spawns nothing; it is the liveness of the process
    that counts, since an entry whose process has exited never gives that
    answer; and right after a start that succeeded, a second start answers
    "already running", exactly one child having been added to the process
    table. *)
Theorem start_project_at_most_one_live E E' project_id project st :
  (forall process,
     running_processes st !! project_id = Some process ->
     poll_is_None st process = true ->
     start_project E project_id project st = (st, Ret (false, msg_already_running))) /\
  (forall process,
     running_processes st !! project_id = Some process ->
     poll_is_None st process = false ->
     snd (start_project E project_id project st) <> Ret (false, msg_already_running)) /\
  (forall st1 m,
     start_project E project_id project st = (st1, Ret (true, m)) ->
     length (procs st1) = S (length (procs st)) /\
     is_live st1 project_id = true /\
     start_project E' project_id project st1 = (st1, Ret (false, msg_already_running))).
Proof.
  split; [|split].
  - intros process Hreg Hpoll. unfold start_project.
    by rewrite (is_live_lookup _ _ _ Hreg), Hpoll.
  - intros process Hreg Hpoll.
    destruct (start_project_results E project_id project st) as [[Hlive _]|[_ Hr]].
    { rewrite (is_live_lookup _ _ _ Hreg) in Hlive. congruence. }
    destruct Hr as [Hr|[[e Hr]|[child Hr]]]; rewrite Hr; intros Heq.
    + apply msg_venv_missing_not_already_running. congruence.
    + apply (msg_execution_failed_not_already_running e). congruence.
    + discriminate Heq.
  - intros st1 m Hstart.
    destruct (start_project_success_inv _ _ _ _ _ _ Hstart)
      as (project_path & exec_info & log_target & user_env & child &
          Hlive & Hpath & Hvenv & Hinfo & Hlog & Hopen & Henv & Hpopen & Hupd).
    rewrite (start_project_reaches_spawn _ _ _ _ _ _ _ _
               Hlive Hpath Hvenv Hinfo Hlog Hopen Henv), Hpopen, Hupd in Hstart.
    simpl in Hstart. injection Hstart as <- <-.
    assert (Hlive1 : is_live
      (set_docs (<[project_id:=started_info child (utcnow E)
                                ∪ default ∅ (docs st !! project_id)]> (docs st))
         (log_event (EvUpdate project_id (started_info child (utcnow E)))
            (spawned_state st project_id log_target
               (mkProc child (run_cmd_of (venv_python_of project_path) project)
                  project_path (user_env ∪ environ E) log_target true true))))
      project_id = true).
    { unfold is_live. simpl. rewrite lookup_insert_eq.
      unfold poll_is_None. simpl. by rewrite lookup_new_proc. }
    split; [|split; [exact Hlive1|]].
    + simpl. rewrite length_app. simpl. lia.
    + unfold start_project. by rewrite Hlive1.
Qed.

Lemma start_project_at_most_one_live_witness :
  start_project Example.E0 "p" Example.project Example.st_started
    = (Example.st_started, Ret (false, msg_already_running)) /\
  length (procs Example.st_started) = 1%nat /\
  snd (start_project Example.E0 "p" Example.project Example.st_exited)
    <> Ret (false, msg_already_running).
Proof.
  destruct (start_project_at_most_one_live Example.E0 Example.E0 "p"
              Example.project Example.st0) as (_ & _ & Hfresh).
  destruct (start_project_at_most_one_live Example.E0 Example.E0 "p"
              Example.project Example.st_started) as (Hlive & _ & _).
  destruct (start_project_at_most_one_live Example.E0 Example.E0 "p"
              Example.project Example.st_exited) as (_ & Hstale & _).
  destruct (Hfresh Example.st_started (msg_started 4242)) as (Hlen & _ & _).
  - vm_compute. reflexivity.
  - split; [|split; [exact Hlen|]].
    + apply (Hlive 0%nat); vm_compute; reflexivity.
    + apply (Hstale 0%nat); vm_compute; reflexivity.
Defined.

Lemma msg_not_running_not_already_stopped :
  msg_not_running <> msg_already_stopped.
Proof. discriminate. Qed.

Lemma msg_stop_failed_not_already_stopped e :
  msg_stop_failed e <> msg_already_stopped.
Proof. unfold msg_stop_failed, msg_already_stopped. simpl. discriminate. Qed.

(** A stop returns a tuple; it does not raise. *)
Lemma stop_project_returns E project_id st :
  exists ok msg, snd (stop_project E project_id st) = Ret (ok, msg).
Proof.
  destruct (stop_project_outcome E project_id st) as (_ & _ & _ & H).
  destruct (running_processes st !! project_id) as [process|].
  - destruct (poll_is_None st process).
    + destruct H as [H|[e H]]; eauto.
    + destruct H as [_ H]; eauto.
  - destruct H as [_ H]; eauto.
Qed.

(** A start returns a tuple; it does not raise. *)
Lemma start_project_returns E project_id project st :
  exists ok msg, snd (start_project E project_id project st) = Ret (ok, msg).
Proof.
  destruct (start_project_results E project_id project st) as [[_ Hr]|[_ Hr]];
    [eauto|].
  destruct Hr as [Hr|[[e Hr]|[child Hr]]]; eauto.
Qed.

(** A restart is the start run after the stop and the delay, the answer of
    the stop being dropped. *)
Lemma restart_project_eq Estop Estart project_id project st :
  restart_project Estop Estart project_id project st
    = start_project Estart project_id project
        (log_event (EvSleep 1) (fst (stop_project Estop project_id st))).
Proof.
  destruct (stop_project_returns Estop project_id st) as (ok & msg & Hret).
  unfold restart_project, bind, sleep.
  destruct (stop_project Estop project_id st) as [s r]. simpl in *. by subst r.
Qed.

Lemma restart_project_returns Estop Estart project_id project st :
  exists ok msg,
    snd (restart_project Estop Estart project_id project st) = Ret (ok, msg).
Proof. rewrite restart_project_eq. apply start_project_returns. Qed.

(** A usage query returns its text and leaves the state alone. *)
Lemma get_project_usage_returns E project_id st :
  exists msg, get_project_usage E project_id st = (st, Ret msg).
Proof.
  unfold get_project_usage. run_monad.
  destruct (running_processes st !! project_id) as [process|]; simpl; [|eauto].
  destruct (poll_is_None st process); simpl; [|eauto].
  destruct (sample_result E); simpl; eauto.
Qed.

(** C2, as the code has it: a restart is a stop, then the settle delay of
    one second, then a start.  The stop returns (it never raises) and
    whatever it answers, be it "not running", "already stopped", success or a
    failure to stop, is dropped: the start runs on the state the stop and the
    delay leave behind, where the project has no registry entry any more, so
    the start goes past its liveness check.  The events of the stop, none of
    them a spawn, come first in the trace, then the delay, then the events of
    the start. *)
Theorem restart_project_stop_settle_start Estop Estart project_id project st :
  let st1 := fst (stop_project Estop project_id st) in
  let st2 := log_event (EvSleep 1) st1 in
  (exists ok msg, snd (stop_project Estop project_id st) = Ret (ok, msg)) /\
  restart_project Estop Estart project_id project st
    = start_project Estart project_id project st2 /\
  is_live st2 project_id = false /\
  snd (restart_project Estop Estart project_id project st)
    <> Ret (false, msg_already_running) /\
  exists t_stop t_start,
    trace st1 = trace st ++ t_stop /\
    (forall cmd dir, EvSpawn cmd dir ∉ t_stop) /\
    trace (fst (restart_project Estop Estart project_id project st))
      = trace st ++ t_stop ++ [EvSleep 1] ++ t_start.
Proof.
  intros st1 st2.
  destruct (stop_project_returns Estop project_id st) as (ok & msg & Hret).
  destruct (stop_project_outcome Estop project_id st) as (Hreg & _ & (t_stop & Ht & Hns) & _).
  fold st1 in Hreg, Ht.
  assert (Heq : restart_project Estop Estart project_id project st
                = start_project Estart project_id project st2).
  { apply restart_project_eq. }
  assert (Hlive : is_live st2 project_id = false).
  { apply is_live_absent. subst st2. simpl. rewrite Hreg. apply lookup_delete_eq. }
  split; [eauto|]. split; [exact Heq|]. split; [exact Hlive|]. split.
  - rewrite Heq.
    destruct (start_project_results Estart project_id project st2) as [[Hl _]|[_ Hr]];
      [congruence|].
    destruct Hr as [Hr|[[e Hr]|[child Hr]]]; rewrite Hr; intros Hbad.
    + apply msg_venv_missing_not_already_running. congruence.
    + apply (msg_execution_failed_not_already_running e). congruence.
    + discriminate Hbad.
  - destruct (start_project_events Estart project_id project st2) as (t_start & Hts & _).
    exists t_stop, t_start. split; [exact Ht|]. split; [exact Hns|].
    rewrite Heq, Hts. subst st2. simpl. rewrite Ht. by rewrite <- !app_assoc.
Qed.

Lemma restart_project_stop_settle_start_witness :
  snd (restart_project Example.E0 Example.E0 "p" Example.project Example.st_started)
    = Ret (true, msg_started 4242) /\
  snd (restart_project Example.E0 Example.E0 "p" Example.project Example.st_started)
    <> Ret (false, msg_already_running).
Proof.
  destruct (restart_project_stop_settle_start Example.E0 Example.E0 "p"
              Example.project Example.st_started) as (_ & _ & _ & H & _).
  split; [vm_compute; reflexivity | exact H].
Defined.

(** C2, the part the code does not have: here sending the termination
    signal raises, the stop answers "failed to stop", and the restart goes on
    all the same: it spawns a second child next to the first, which is still
    alive, and answers with the new PID. *)
Lemma restart_project_goes_on_after_failed_stop :
  snd (stop_project Example.E_signal_fails "p" Example.st_started)
    = Ret (false, msg_stop_failed Example.boom) /\
  snd (restart_project Example.E_signal_fails Example.E_signal_fails "p"
         Example.project Example.st_started)
    = Ret (true, msg_started 4243) /\
  (alive <$> procs (fst (restart_project Example.E_signal_fails
                           Example.E_signal_fails "p" Example.project
                           Example.st_started)))
    = [true; true].
Proof. vm_compute. repeat split. Qed.

(** C3: without a registry entry a stop answers "not running" and changes
    nothing; on an entry whose process has already exited it removes the
    entry, touches nothing else, and answers "already stopped".  That answer
    tells the caller what happened: it is given exactly when an entry was
    there and its process had exited, while the success answer "we stopped
    it" is given only when the process was still alive. *)
Theorem stop_project_not_running_or_already_stopped E project_id st :
  (running_processes st !! project_id = None ->
   stop_project E project_id st = (st, Ret (false, msg_not_running))) /\
  (forall process,
     running_processes st !! project_id = Some process ->
     poll_is_None st process = false ->
     stop_project E project_id st
       = (set_running_processes (delete project_id (running_processes st)) st,
          Ret (false, msg_already_stopped))) /\
  (snd (stop_project E project_id st) = Ret (false, msg_already_stopped) <->
   exists process,
     running_processes st !! project_id = Some process /\
     poll_is_None st process = false) /\
  (forall msg,
     snd (stop_project E project_id st) = Ret (true, msg) ->
     exists process,
       running_processes st !! project_id = Some process /\
       poll_is_None st process = true).
Proof.
  pose proof (stop_project_outcome E project_id st) as (_ & _ & _ & H).
  split; [|split; [|split]].
  - intros Hreg. rewrite Hreg in H. destruct H as [H1 H2].
    rewrite (surjective_pairing (stop_project E project_id st)). by rewrite H1, H2.
  - intros process Hreg Hpoll. rewrite Hreg, Hpoll in H. destruct H as [H1 H2].
    rewrite (surjective_pairing (stop_project E project_id st)). by rewrite H1, H2.
  - split.
    + intros Hr. destruct (running_processes st !! project_id) as [process|].
      * exists process. split; [done|].
        destruct (poll_is_None st process); [|done].
        destruct H as [H|[e H]]; rewrite H in Hr; [discriminate Hr|].
        exfalso. apply (msg_stop_failed_not_already_stopped e). congruence.
      * destruct H as [_ H]. rewrite H in Hr.
        exfalso. apply msg_not_running_not_already_stopped. congruence.
    + intros (process & Hreg & Hpoll). rewrite Hreg, Hpoll in H. by destruct H.
  - intros msg Hr. destruct (running_processes st !! project_id) as [process|].
    + exists process. split; [done|].
      destruct (poll_is_None st process); [done|].
      destruct H as [_ H]. rewrite H in Hr. discriminate Hr.
    + destruct H as [_ H]. rewrite H in Hr. discriminate Hr.
Qed.

Lemma stop_project_not_running_or_already_stopped_witness :
  stop_project Example.E0 "p" Example.st0
    = (Example.st0, Ret (false, msg_not_running)) /\
  snd (stop_project Example.E0 "p" Example.st_exited)
    = Ret (false, msg_already_stopped) /\
  running_processes (fst (stop_project Example.E0 "p" Example.st_exited)) !! "p"
    = None.
Proof.
  destruct (stop_project_not_running_or_already_stopped Example.E0 "p" Example.st0)
    as (Hnone & _).
  destruct (stop_project_not_running_or_already_stopped Example.E0 "p" Example.st_exited)
    as (_ & Hgone & _).
  split; [apply Hnone; vm_compute; reflexivity|].
  rewrite (Hgone 0%nat); [|vm_compute; reflexivity|vm_compute; reflexivity].
  split; [reflexivity|]. simpl. apply lookup_delete_eq.
Defined.

Lemma started_info_lookups child now (d : Doc) :
  (started_info child now ∪ d) !! "is_running" = Some (VBool true) /\
  (started_info child now ∪ d) !! "pid" = Some (VInt child) /\
  (started_info child now ∪ d) !! "last_run_time" = Some (VDatetime now) /\
  (started_info child now ∪ d) !! "status" = Some (VStr "running").
Proof. repeat split; by apply lookup_union_Some_l. Qed.

(** C4, as the code has it.  Take a start that gets as far as the spawn:
    no live entry, the runtime provisioned, the log file opened, the [.env]
    file read.  If the spawn succeeds the child is registered under the
    project; if the database call then succeeds too, the stored execution
    info reads is_running = True, pid = the child's PID, last_run_time = now
    and status = running, and the answer is success with the PID; if the
    database call raises, nothing is stored and the answer is a failure
    carrying the error text, the child staying registered.  If the spawn
    raises, nothing is registered, no child is added, nothing is stored and
    the answer is a failure carrying the error text. *)
Theorem start_project_spawn_outcome E project_id project st
    project_path exec_info log_target user_env :
  is_live st project_id = false ->
  p_path project = Some project_path ->
  venv_python_of project_path ∈ files st ->
  p_execution_info project = Some exec_info ->
  exec_info !! "log_file" = Some log_target ->
  open_result E = None ->
  (if bool_decide (path_join project_path ".env" ∈
        match log_target with VStr f => {[f]} ∪ files st | _ => files st end)
   then dotenv_result E else Ret ∅) = Ret user_env ->
  let st' := fst (start_project E project_id project st) in
  let r := snd (start_project E project_id project st) in
  match popen_result E with
  | Ret child =>
      running_processes st' = <[project_id := length (procs st)]> (running_processes st) /\
      (exists p, procs st' = procs st ++ [p] /\ pid p = child /\ alive p = true) /\
      match update_result E with
      | None =>
          (exists d, docs st' !! project_id = Some d /\
             d !! "is_running" = Some (VBool true) /\
             d !! "pid" = Some (VInt child) /\
             d !! "last_run_time" = Some (VDatetime (utcnow E)) /\
             d !! "status" = Some (VStr "running")) /\
          r = Ret (true, msg_started child)
      | Some e =>
          docs st' = docs st /\ r = Ret (false, msg_execution_failed e)
      end
  | Raise e =>
      running_processes st' = running_processes st /\
      procs st' = procs st /\
      docs st' = docs st /\
      r = Ret (false, msg_execution_failed e)
  end.
Proof.
  intros Hlive Hpath Hvenv Hinfo Hlog Hopen Henv st' r. subst st' r.
  rewrite (start_project_reaches_spawn _ _ _ _ _ _ _ _
             Hlive Hpath Hvenv Hinfo Hlog Hopen Henv).
  destruct (popen_result E) as [child|e]; simpl; [|done].
  destruct (update_result E) as [e|]; simpl.
  - repeat split; eauto.
  - split; [done|]. split; [eauto|]. split; [|done].
    eexists. split; [apply lookup_insert_eq|]. apply started_info_lookups.
Qed.

Lemma start_project_spawn_outcome_witness :
  running_processes (fst (start_project Example.E0 "p" Example.project Example.st0)) !! "p"
    = Some 0%nat /\
  snd (start_project Example.E0 "p" Example.project Example.st0)
    = Ret (true, msg_started 4242).
Proof.
  assert (H := start_project_spawn_outcome Example.E0 "p" Example.project Example.st0
                 "/srv/p" {[ "log_file" := VStr "/srv/p/out.log" ]}
                 (VStr "/srv/p/out.log") ∅).
  change (popen_result Example.E0) with (Ret 4242 : Res Z) in H.
  change (update_result Example.E0) with (@None Exn) in H.
  cbv beta iota zeta in H.
  destruct H as (Hreg & _ & _ & Hr).
  - vm_compute. reflexivity.
  - reflexivity.
  - compute_done.
  - reflexivity.
  - vm_compute. reflexivity.
  - reflexivity.
  - vm_compute. reflexivity.
  - split; [|exact Hr]. rewrite Hreg. apply lookup_insert_eq.
Defined.

(** C4, where the claim fails: the spawn succeeds and the child is
    registered and alive, but the database call raises; the start then
    answers with a failure instead of the PID and nothing is persisted. *)
Lemma start_project_spawned_but_reports_failure :
  running_processes (fst (start_project Example.E_db_down "p" Example.project Example.st0)) !! "p"
    = Some 0%nat /\
  (alive <$> procs (fst (start_project Example.E_db_down "p" Example.project Example.st0)))
    = [true] /\
  docs (fst (start_project Example.E_db_down "p" Example.project Example.st0))
    = docs Example.st0 /\
  snd (start_project Example.E_db_down "p" Example.project Example.st0)
    = Ret (false, msg_execution_failed Example.boom).
Proof. vm_compute. repeat split. Qed.

(** C5, as the code has it: when the project has no live registry entry
    and the interpreter of its isolated runtime does not exist, a start
    answers "virtual environment not found" and leaves the whole state as it
    was: registry, process table, stored execution info, and no event (so no
    update) issued. *)
Theorem start_project_environment_missing E project_id project st project_path :
  is_live st project_id = false ->
  p_path project = Some project_path ->
  venv_python_of project_path ∉ files st ->
  start_project E project_id project st = (st, Ret (false, msg_venv_missing)).
Proof.
  intros Hlive Hpath Hvenv. unfold start_project. rewrite Hlive, Hpath.
  run_monad. simpl. by rewrite (bool_decide_eq_false_2 _ Hvenv).
Qed.

Lemma start_project_environment_missing_witness :
  start_project Example.E0 "p" Example.project (set_files ∅ Example.st0)
    = (set_files ∅ Example.st0, Ret (false, msg_venv_missing)).
Proof.
  apply (start_project_environment_missing _ _ _ _ "/srv/p").
  - vm_compute. reflexivity.
  - reflexivity.
  - apply not_elem_of_empty.
Defined.

(** C5, where the claim fails: the runtime marker is absent, yet the
    project's child is registered and alive, and the start answers "already
    running", not "virtual environment not found". *)
Lemma start_project_missing_environment_but_already_running :
  (venv_python_of "/srv/p" ∉ files Example.st_unprovisioned) /\
  start_project Example.E0 "p" Example.project Example.st_unprovisioned
    = (Example.st_unprovisioned, Ret (false, msg_already_running)) /\
  msg_already_running <> msg_venv_missing.
Proof.
  split; [apply not_elem_of_empty|]. split; [|discriminate].
  vm_compute. reflexivity.
Qed.

(** C7: the command a start runs is the interpreter of the project's
    isolated runtime, [.venv/bin/python] under the project's path, followed
    by the tokens of the configured command line after the first one,
    unchanged and in order.  This holds for every command line: however it is
    written out as tokens (runs of code points that are not whitespace) with
    whitespace before, between and after them, whitespace being what Python
    counts as such, the first token is dropped and the others are passed on
    as they are; a command line of whitespace only gives the interpreter
    alone.  Every text can be written out in this way, so this settles every
    command line.  "python main.py", which is also the default, becomes the
    interpreter followed by "main.py".  Every spawn a start issues uses that
    command, in the project's directory, and the child a successful start
    registers was started with it. *)
Theorem start_project_replaces_first_token E project_id project st :
  (forall project_path,
     venv_python_of project_path
       = if decide (project_path = "") then ".venv/bin/python"
         else if ends_with_slash project_path
              then project_path +:+ ".venv/bin/python"
              else project_path +:+ "/.venv/bin/python") /\
  (forall venv_python lead first gap rest,
     is_text_gap lead ->
     well_laid ((first, gap) :: rest) ->
     p_run_command project
       = Some (encode (lead ++ layout ((first, gap) :: rest))) ->
     split (encode (lead ++ layout ((first, gap) :: rest)))
       = encode first :: (encode <$> rest.*1) /\
     run_cmd_of venv_python project = venv_python :: (encode <$> rest.*1)) /\
  (forall venv_python lead,
     is_text_gap lead ->
     p_run_command project = Some (encode lead) ->
     run_cmd_of venv_python project = [venv_python]) /\
  (forall venv_python cps,
     Forall is_scalar cps ->
     p_run_command project = Some (encode cps) ->
     exists lead items,
       is_text_gap lead /\ well_laid items /\ cps = lead ++ layout items /\
       split (encode cps) = encode <$> items.*1 /\
       run_cmd_of venv_python project
         = venv_python :: tail (encode <$> items.*1)) /\
  (forall venv_python first rest,
     split (default "python main.py" (p_run_command project)) = first :: rest ->
     run_cmd_of venv_python project = venv_python :: rest) /\
  (forall venv_python path name info,
     run_cmd_of venv_python (mkProject path name (Some "python main.py") info)
       = [venv_python; "main.py"] /\
     run_cmd_of venv_python (mkProject path name None info)
       = [venv_python; "main.py"]) /\
  (exists t,
     trace (fst (start_project E project_id project st)) = trace st ++ t /\
     forall cmd dir, EvSpawn cmd dir ∈ t ->
       exists project_path,
         p_path project = Some project_path /\
         dir = project_path /\
         cmd = run_cmd_of (venv_python_of project_path) project) /\
  (forall st' m,
     start_project E project_id project st = (st', Ret (true, m)) ->
     exists project_path p,
       p_path project = Some project_path /\
       running_processes st' !! project_id = Some (length (procs st)) /\
       procs st' !! length (procs st) = Some p /\
       argv p = venv_python_of project_path
                  :: tail (split (default "python main.py" (p_run_command project)))).
Proof.
  split; [|split; [|split; [|split; [|split; [|split; [|split]]]]]].
  - apply venv_python_of_spelled_out.
  - intros venv_python lead first gap rest Hlead Hlaid Hcmd.
    pose proof (split_layout lead _ Hlead Hlaid) as Hsplit.
    split; [exact Hsplit|]. unfold run_cmd_of. rewrite Hcmd.
    change (default "python main.py" (Some ?x)) with x. by rewrite Hsplit.
  - intros venv_python lead Hlead Hcmd. unfold run_cmd_of. rewrite Hcmd.
    change (default "python main.py" (Some ?x)) with x.
    pose proof (split_layout lead [] Hlead I) as Hsplit.
    simpl in Hsplit. rewrite app_nil_r in Hsplit. by rewrite Hsplit.
  - intros venv_python cps Hcps Hcmd.
    destruct (text_is_laid_out cps Hcps) as (lead & items & Hlead & Hlaid & ->).
    exists lead, items. split; [exact Hlead|]. split; [exact Hlaid|].
    split; [reflexivity|].
    pose proof (split_layout lead items Hlead Hlaid) as Hsplit.
    split; [exact Hsplit|]. unfold run_cmd_of. rewrite Hcmd.
    change (default "python main.py" (Some ?x)) with x. by rewrite Hsplit.
  - intros venv_python first rest Hsplit. unfold run_cmd_of. by rewrite Hsplit.
  - intros venv_python path name info. by split.
  - apply start_project_events.
  - intros st' m Hstart.
    destruct (start_project_success_inv _ _ _ _ _ _ Hstart)
      as (project_path & exec_info & log_target & user_env & child &
          Hlive & Hpath & Hvenv & Hinfo & Hlog & Hopen & Henv & Hpopen & Hupd).
    rewrite (start_project_reaches_spawn _ _ _ _ _ _ _ _
               Hlive Hpath Hvenv Hinfo Hlog Hopen Henv), Hpopen, Hupd in Hstart.
    simpl in Hstart. injection Hstart as <- <-.
    exists project_path. eexists. split; [exact Hpath|]. simpl.
    split; [apply lookup_insert_eq|]. split; [apply lookup_new_proc|]. reflexivity.
Qed.

Lemma start_project_replaces_first_token_witness :
  argv <$> procs (fst (start_project Example.E0 "p" Example3.project Example.st0))
    = [["/srv/p/.venv/bin/python"; "app.py"; "--port"; "80"]].
Proof.
  destruct (start_project_replaces_first_token Example.E0 "p" Example3.project
              Example.st0) as (Hvenv & Hline & _ & _ & _ & _ & _ & Hstart).
  destruct (Hstart (start_project Example.E0 "p" Example3.project Example.st0).1
              (msg_started 4242))
    as (project_path & p & Hpath & _ & Hp & Hargv).
  { vm_compute. reflexivity. }
  injection Hpath as <-.
  destruct (Hline "/srv/p/.venv/bin/python" Example3.lead (codes "node") [32; 32]
              (tail Example3.items)) as [Hsplit _].
  - apply is_text_gap_b_sound. vm_compute. reflexivity.
  - apply well_laid_b_sound. vm_compute. reflexivity.
  - reflexivity.
  - assert (Hone : procs (start_project Example.E0 "p" Example3.project
                            Example.st0).1 = [p]).
    { revert Hp. vm_compute. intros Hp. by injection Hp as <-. }
    rewrite Hone. simpl. rewrite Hargv, (Hvenv "/srv/p").
    change (default "python main.py" (p_run_command Example3.project))
      with (encode (Example3.lead ++ layout Example3.items)).
    change Example3.items with ((codes "node", [32; 32]) :: tail Example3.items).
    rewrite Hsplit. vm_compute. reflexivity.
Defined.

(** C9: a stop called while the registry holds an entry for the project
    leaves the registry without that entry, whatever else happens: the other
    entries stay as they were, and in particular the entry is gone when the
    process had already exited and when sending the termination signal raises
    and the stop answers with a failure. *)
Theorem stop_project_always_removes_entry E project_id st process :
  running_processes st !! project_id = Some process ->
  let st' := fst (stop_project E project_id st) in
  let r := snd (stop_project E project_id st) in
  running_processes st' !! project_id = None /\
  running_processes st' = delete project_id (running_processes st) /\
  (poll_is_None st process = false -> r = Ret (false, msg_already_stopped)) /\
  (forall e, poll_is_None st process = true -> terminate_result E = Some e ->
             r = Ret (false, msg_stop_failed e)).
Proof.
  intros Hreg st' r.
  destruct (stop_project_outcome E project_id st) as (Hdel & _ & _ & H).
  fold st' in Hdel. rewrite Hreg in H.
  split; [rewrite Hdel; apply lookup_delete_eq|]. split; [exact Hdel|]. split.
  - intros Hpoll. rewrite Hpoll in H. by destruct H.
  - intros e Hpoll Hterm. subst r. unfold stop_project.
    rewrite Hreg, poll_set_running_processes, Hpoll. run_monad. simpl.
    by rewrite Hterm.
Qed.

Lemma stop_project_always_removes_entry_witness :
  running_processes (fst (stop_project Example.E_signal_fails "p" Example.st_started)) !! "p"
    = None /\
  snd (stop_project Example.E_signal_fails "p" Example.st_started)
    = Ret (false, msg_stop_failed Example.boom).
Proof.
  destruct (stop_project_always_removes_entry Example.E_signal_fails "p"
              Example.st_started 0%nat) as (Hgone & _ & _ & Hfail).
  - vm_compute. reflexivity.
  - split; [exact Hgone|]. apply Hfail; vm_compute; reflexivity.
Defined.

(** C10: when a stop finds the registered process already exited, it
    removes the registry entry and does nothing else: no event is issued, so
    no update reaches the database, and the stored execution info is what it
    was before, whatever it says. *)
Theorem stop_project_already_stopped_keeps_execution_info E project_id st process :
  running_processes st !! project_id = Some process ->
  poll_is_None st process = false ->
  let st' := fst (stop_project E project_id st) in
  snd (stop_project E project_id st) = Ret (false, msg_already_stopped) /\
  running_processes st' !! project_id = None /\
  docs st' = docs st /\
  trace st' = trace st.
Proof.
  intros Hreg Hpoll st'.
  destruct (stop_project_outcome E project_id st) as (_ & _ & _ & H).
  rewrite Hreg, Hpoll in H. destruct H as [Hst Hr]. subst st'. rewrite Hst.
  split; [exact Hr|]. split; [apply lookup_delete_eq|]. by split.
Qed.

(** The stored document still says the project is running under PID 4242
    after its child has exited and the project has been stopped. *)
Lemma stop_project_already_stopped_keeps_execution_info_witness :
  let st' := fst (stop_project Example.E0 "p" Example.st_exited) in
  snd (stop_project Example.E0 "p" Example.st_exited) = Ret (false, msg_already_stopped) /\
  (docs st' !! "p" ≫= (.!! "is_running")) = Some (VBool true) /\
  (docs st' !! "p" ≫= (.!! "pid")) = Some (VInt 4242).
Proof.
  destruct (stop_project_already_stopped_keeps_execution_info Example.E0 "p"
              Example.st_exited 0%nat) as (Hr & _ & Hdocs & _).
  - vm_compute. reflexivity.
  - vm_compute. reflexivity.
  - simpl. split; [exact Hr|]. rewrite Hdocs. split; vm_compute; reflexivity.
Defined.

(** C8: a usage query answers "not running" when the registry has no
    entry for the project, and "stopped" when the entry's process has
    exited; neither samples anything.  With a live entry, an error raised
    while sampling is turned into the answer "could not retrieve usage"
    carrying the error text.  In every case the call returns a message and
    leaves the state alone; it never raises. *)
Theorem get_project_usage_never_raises E project_id st :
  (running_processes st !! project_id = None ->
   get_project_usage E project_id st = (st, Ret msg_not_running)) /\
  (forall process,
     running_processes st !! project_id = Some process ->
     poll_is_None st process = false ->
     get_project_usage E project_id st = (st, Ret msg_usage_stopped)) /\
  (forall process e,
     running_processes st !! project_id = Some process ->
     poll_is_None st process = true ->
     sample_result E = Raise e ->
     get_project_usage E project_id st = (st, Ret (msg_usage_failed e))) /\
  (exists msg, get_project_usage E project_id st = (st, Ret msg)).
Proof.
  unfold get_project_usage. run_monad.
  destruct (running_processes st !! project_id) as [process|]; simpl.
  2: { repeat split; try done. eauto. }
  split; [done|]. split; [|split].
  - intros ? [= <-] Hpoll. by rewrite Hpoll.
  - intros ? e [= <-] Hpoll Hsample. by rewrite Hpoll, Hsample.
  - destruct (poll_is_None st process); simpl; [|eauto].
    destruct (sample_result E); simpl; eauto.
Qed.

Lemma get_project_usage_never_raises_witness :
  get_project_usage Example.E0 "p" Example.st0
    = (Example.st0, Ret msg_not_running) /\
  get_project_usage Example.E0 "p" Example.st_exited
    = (Example.st_exited, Ret msg_usage_stopped) /\
  get_project_usage Example.E_no_sample "p" Example.st_started
    = (Example.st_started, Ret (msg_usage_failed Example.boom)).
Proof.
  destruct (get_project_usage_never_raises Example.E0 "p" Example.st0) as (H0 & _).
  destruct (get_project_usage_never_raises Example.E0 "p" Example.st_exited)
    as (_ & H1 & _).
  destruct (get_project_usage_never_raises Example.E_no_sample "p" Example.st_started)
    as (_ & _ & H2 & _).
  split; [apply H0; vm_compute; reflexivity|].
  split; [apply (H1 0%nat); vm_compute; reflexivity|].
  apply (H2 0%nat); vm_compute; reflexivity.
Defined.

(** A status query returns its text when the project dict has the keys the
    function reads. *)
Lemma get_project_status_returns E project_id project detailed st :
  is_Some (p_execution_info project) ->
  (detailed = true -> is_Some (p_name project)) ->
  exists msg, get_project_status E project_id project detailed st = (st, Ret msg).
Proof.
  intros [exec_info Hinfo] Hname. unfold get_project_status. rewrite Hinfo.
  run_monad. simpl.
  destruct (is_live st project_id); simpl.
  all: destruct detailed; simpl; [|eauto].
  all: destruct (Hname eq_refl) as [name ->]; simpl; eauto.
Qed.

(** C6, as the code has it: [start_project], [stop_project] and
    [restart_project] return a boolean paired with a message;
    [get_project_usage] and [get_project_status] return a message alone.
    The first four never raise, and the status query does not raise when the
    project dict carries its execution info and, for the detailed view, its
    name. *)
Theorem public_operations_result_shape E E' op st :
  match op with
  | OpStart _ _ | OpStop _ | OpRestart _ _ =>
      exists ok msg, snd (call E E' op st) = Ret (RTuple ok msg)
  | OpUsage _ =>
      exists msg, snd (call E E' op st) = Ret (RStr msg)
  | OpStatus _ project detailed =>
      is_Some (p_execution_info project) ->
      (detailed = true -> is_Some (p_name project)) ->
      exists msg, snd (call E E' op st) = Ret (RStr msg)
  end.
Proof.
  destruct op as [project_id project|project_id|project_id project
                 |project_id project detailed|project_id];
    unfold call, as_tuple, as_str, bind, ret.
  - destruct (start_project_results E project_id project st) as [[_ Hr]|[_ Hr]].
    2: destruct Hr as [Hr|[[e Hr]|[child Hr]]].
    all: destruct (start_project E project_id project st) as [s r];
      simpl in Hr; subst r; simpl; eauto.
  - destruct (stop_project_returns E project_id st) as (ok & msg & Hr).
    destruct (stop_project E project_id st) as [s r]; simpl in Hr; subst r;
      simpl; eauto.
  - destruct (restart_project_returns E E' project_id project st)
      as (ok & msg & Hr).
    destruct (restart_project E E' project_id project st) as [s r];
      simpl in Hr; subst r; simpl; eauto.
  - intros Hinfo Hname.
    destruct (get_project_status_returns E project_id project detailed st Hinfo Hname)
      as [msg Hr].
    rewrite Hr. simpl. eauto.
  - destruct (get_project_usage_returns E project_id st) as [msg Hr].
    rewrite Hr. simpl. eauto.
Qed.

Lemma public_operations_result_shape_witness :
  exists msg,
    snd (call Example.E0 Example.E0 (OpStatus "p" Example.project true) Example.st_started)
      = Ret (RStr msg).
Proof.
  apply (public_operations_result_shape Example.E0 Example.E0
           (OpStatus "p" Example.project true) Example.st_started).
  - eexists. reflexivity.
  - intros _. eexists. reflexivity.
Defined.

(** C6, where the claim fails: the usage and status queries hand back a
    bare string, which has no boolean success indicator and is no tuple; and
    a status query on a project dict without its execution info raises the
    [KeyError] of the lookup, which nothing catches. *)
Lemma usage_and_status_return_bare_strings :
  snd (call Example.E0 Example.E0 (OpUsage "p") Example.st0)
    = Ret (RStr msg_not_running) /\
  snd (call Example.E0 Example.E0 (OpStatus "p" Example.project false) Example.st0)
    = Ret (RStr status_stopped) /\
  success_indicator (RStr msg_not_running) = None /\
  (forall ok msg, RStr msg_not_running <> RTuple ok msg) /\
  snd (call Example.E0 Example.E0
         (OpStatus "p" (mkProject (Some "/srv/p") (Some "demo") None None) false)
         Example.st0)
    = Raise (KeyError "execution_info").
Proof. repeat split; try discriminate; vm_compute; reflexivity. Qed.

(** * Further properties *)

(** ** How a start changes the state *)

#[local] Arguments path_join : simpl never.

(** Case on whether the [.env] file exists, whichever way the test is
    written in the goal. *)
Ltac split_on_dotenv :=
  match goal with
  | |- context [bool_decide (?x ∈ ?S)] =>
      let Hin := fresh "Hin" in
      destruct (decide (x ∈ S)) as [Hin|Hin];
      [ rewrite ?(bool_decide_eq_true_2 _ Hin)
      | rewrite ?(bool_decide_eq_false_2 _ Hin) ];
      simpl
  end.

Ltac start_unchanged :=
  left; simpl; do 3 (split; [reflexivity|]); eauto.

(** Either a start fails before its spawn succeeds, and then the process
    table, the registry and the stored documents are what they were; or it
    got past the liveness check, the runtime marker, the log file and the
    [.env] file, and its spawn succeeded. *)
Lemma start_project_cases E project_id project st :
  (procs (start_project E project_id project st).1 = procs st /\
   running_processes (start_project E project_id project st).1 = running_processes st /\
   docs (start_project E project_id project st).1 = docs st /\
   exists msg, (start_project E project_id project st).2 = Ret (false, msg)) \/
  (exists project_path exec_info log_target user_env child,
     is_live st project_id = false /\
     p_path project = Some project_path /\
     venv_python_of project_path ∈ files st /\
     p_execution_info project = Some exec_info /\
     exec_info !! "log_file" = Some log_target /\
     open_result E = None /\
     (if bool_decide (path_join project_path ".env" ∈
           match log_target with VStr f => {[f]} ∪ files st | _ => files st end)
      then dotenv_result E else Ret ∅) = Ret user_env /\
     popen_result E = Ret child).
Proof.
  unfold start_project.
  destruct (is_live st project_id) eqn:Hlive; [start_unchanged|].
  run_monad.
  destruct (p_path project) as [project_path|] eqn:Hpath; simpl; [|start_unchanged].
  destruct (bool_decide (venv_python_of project_path ∈ files st)) eqn:Hvenv;
    simpl; [|start_unchanged].
  apply bool_decide_eq_true_1 in Hvenv.
  destruct (p_execution_info project) as [exec_info|] eqn:Hinfo; simpl;
    [|start_unchanged].
  destruct (exec_info !! "log_file") as [log_target|] eqn:Hlog; simpl;
    [|start_unchanged].
  destruct (open_result E) eqn:Hopen; simpl; [start_unchanged|].
  destruct (popen_result E) as [child|] eqn:Hpopen.
  - destruct log_target; simpl.
    all: split_on_dotenv.
    all: try (destruct (dotenv_result E) as [user_env|] eqn:Henv; simpl;
              [|start_unchanged]).
    all: right; eexists project_path, exec_info, _, _, child.
    all: repeat (split; [done|]).
    all: first [ rewrite (bool_decide_eq_true_2 _ Hin)
               | rewrite (bool_decide_eq_false_2 _ Hin) ].
    all: by split.
  - destruct log_target; simpl.
    all: split_on_dotenv.
    all: try (destruct (dotenv_result E) as [user_env|] eqn:Henv; simpl).
    all: start_unchanged.
Qed.

(** X1: a start spawns at most one child, and it registers a child exactly
    when it spawned it: either the process table and the registry are what
    they were, or one live child in a session of its own was appended and the
    project now maps to it.  The children that existed keep their place and
    state, and the entries of the other projects are not touched. *)
Theorem start_project_spawns_and_registers_together E project_id project st :
  let st' := (start_project E project_id project st).1 in
  ((procs st' = procs st /\ running_processes st' = running_processes st) \/
   (exists p, procs st' = procs st ++ [p] /\
              alive p = true /\ new_session p = true /\
              running_processes st'
                = <[project_id := length (procs st)]> (running_processes st))) /\
  (forall h p, procs st !! h = Some p -> procs st' !! h = Some p) /\
  (forall other, other <> project_id ->
     running_processes st' !! other = running_processes st !! other).
Proof.
  intros st'. subst st'.
  destruct (start_project_cases E project_id project st)
    as [(Hp & Hr & _)|(project_path & exec_info & log_target & user_env & child &
          Hlive & Hpath & Hvenv & Hinfo & Hlog & Hopen & Henv & Hpopen)].
  - rewrite Hp, Hr. split; [by left|]. by split.
  - rewrite (start_project_reaches_spawn _ _ _ _ _ _ _ _
               Hlive Hpath Hvenv Hinfo Hlog Hopen Henv), Hpopen.
    destruct (update_result E); simpl.
    all: split; [right; eexists; by repeat split|].
    all: split; [intros h p Hh; by apply lookup_app_l_Some
                |intros other Hne; by apply lookup_insert_ne].
Qed.

Lemma start_project_spawns_and_registers_together_witness :
  procs (start_project Example.E0 "q" Example.project Example.st_started).1 !! 0%nat
    = procs Example.st_started !! 0%nat /\
  running_processes (start_project Example.E0 "q" Example.project Example.st_started).1 !! "p"
    = Some 0%nat.
Proof.
  destruct (start_project_spawns_and_registers_together Example.E0 "q"
              Example.project Example.st_started) as (_ & Hprocs & Hreg).
  split.
  - rewrite (Hprocs 0%nat (mkProc 4242 ["/srv/p/.venv/bin/python"; "main.py"]
                             "/srv/p" ∅ (VStr "/srv/p/out.log") true true)).
    + vm_compute. reflexivity.
    + vm_compute. reflexivity.
  - rewrite (Hreg "p"); [vm_compute; reflexivity|discriminate].
Defined.

(** X2: a project dict that lacks a key the start needs does not make the
    start raise: the [KeyError] is caught and reported as a failed execution
    naming the key, and the state is left as it was.  This holds for the
    project's path, and, once the runtime is found, for its execution info
    and for the log file in it. *)
Theorem start_project_missing_key_is_reported E project_id project st :
  is_live st project_id = false ->
  (p_path project = None ->
   start_project E project_id project st
     = (st, Ret (false, msg_execution_failed (KeyError "path")))) /\
  (forall project_path,
     p_path project = Some project_path ->
     venv_python_of project_path ∈ files st ->
     (p_execution_info project = None ->
      start_project E project_id project st
        = (st, Ret (false, msg_execution_failed (KeyError "execution_info")))) /\
     (forall exec_info,
        p_execution_info project = Some exec_info ->
        exec_info !! "log_file" = None ->
        start_project E project_id project st
          = (st, Ret (false, msg_execution_failed (KeyError "log_file"))))).
Proof.
  intros Hlive. unfold start_project. rewrite Hlive. run_monad. split.
  - intros Hpath. by rewrite Hpath.
  - intros project_path Hpath Hvenv. rewrite Hpath. simpl.
    rewrite (bool_decide_eq_true_2 _ Hvenv). simpl. split.
    + intros Hinfo. by rewrite Hinfo.
    + intros exec_info Hinfo Hlog. rewrite Hinfo. simpl. by rewrite Hlog.
Qed.

Lemma start_project_missing_key_is_reported_witness :
  start_project Example.E0 "p" Example2.project_no_path Example.st0
    = (Example.st0, Ret (false, "❌ Execution failed: 'path'")).
Proof.
  destruct (start_project_missing_key_is_reported Example.E0 "p"
              Example2.project_no_path Example.st0) as (H & _).
  - vm_compute. reflexivity.
  - apply H. reflexivity.
Defined.

(** X3: when the log file cannot be opened, or the [.env] file cannot be
    read, the start fails with the error text before any spawn: the only
    event is the attempt to open the log file, nothing is spawned, registered
    or stored.  In the second case the log file has already been created. *)
Theorem start_project_failure_before_spawn E project_id project st
    project_path exec_info log_target :
  is_live st project_id = false ->
  p_path project = Some project_path ->
  venv_python_of project_path ∈ files st ->
  p_execution_info project = Some exec_info ->
  exec_info !! "log_file" = Some log_target ->
  let files_opened :=
    match log_target with VStr f => {[f]} ∪ files st | _ => files st end in
  (forall e,
     open_result E = Some e ->
     start_project E project_id project st
       = (log_event (EvOpen log_target) st, Ret (false, msg_execution_failed e))) /\
  (forall e,
     open_result E = None ->
     path_join project_path ".env" ∈ files_opened ->
     dotenv_result E = Raise e ->
     start_project E project_id project st
       = (log_event (EvOpen log_target) (set_files files_opened st),
          Ret (false, msg_execution_failed e))).
Proof.
  intros Hlive Hpath Hvenv Hinfo Hlog files_opened. subst files_opened.
  unfold start_project. rewrite Hlive, Hpath, Hinfo. run_monad. simpl.
  rewrite (bool_decide_eq_true_2 _ Hvenv). simpl. rewrite Hlog. simpl. split.
  - intros e Hopen. by rewrite Hopen.
  - intros e Hopen Hin Henv. rewrite Hopen.
    destruct log_target; simpl in *.
    all: by rewrite (bool_decide_eq_true_2 _ Hin), Henv.
Qed.

Lemma start_project_failure_before_spawn_witness :
  start_project Example2.E_no_log "p" Example.project Example.st0
    = (log_event (EvOpen (VStr "/srv/p/out.log")) Example.st0,
       Ret (false, msg_execution_failed Example.boom)) /\
  procs (start_project Example2.E_no_log "p" Example.project Example.st0).1 = [].
Proof.
  destruct (start_project_failure_before_spawn Example2.E_no_log "p"
              Example.project Example.st0 "/srv/p"
              {[ "log_file" := VStr "/srv/p/out.log" ]} (VStr "/srv/p/out.log"))
    as (H & _).
  - vm_compute. reflexivity.
  - reflexivity.
  - compute_done.
  - reflexivity.
  - vm_compute. reflexivity.
  - rewrite (H Example.boom); [|reflexivity]. split; reflexivity.
Defined.

(** X4: the child of a successful start runs in the project's directory,
    in a session of its own, with its output going to the configured log
    file, which exists afterwards.  Its environment is the supervisor's,
    overlaid with the variables of the project's [.env] file when that file
    exists: a variable defined there wins, every other one is inherited. *)
Theorem start_project_child_parameters E project_id project st st' m :
  start_project E project_id project st = (st', Ret (true, m)) ->
  exists project_path log_target user_env p,
    p_path project = Some project_path /\
    (p_execution_info project ≫= (.!! "log_file")) = Some log_target /\
    procs st' !! length (procs st) = Some p /\
    running_processes st' !! project_id = Some (length (procs st)) /\
    m = msg_started (pid p) /\
    cwd p = project_path /\
    proc_out p = log_target /\
    new_session p = true /\
    alive p = true /\
    (forall f, log_target = VStr f -> f ∈ files st') /\
    ((path_join project_path ".env" ∈ files st' /\ dotenv_result E = Ret user_env) \/
     ((path_join project_path ".env" ∉ files st') /\ user_env = ∅)) /\
    (forall k,
       proc_env p !! k
         = match user_env !! k with
           | Some v => Some v
           | None => environ E !! k
           end).
Proof.
  intros Hstart.
  destruct (start_project_success_inv _ _ _ _ _ _ Hstart)
    as (project_path & exec_info & log_target & user_env & child &
        Hlive & Hpath & Hvenv & Hinfo & Hlog & Hopen & Henv & Hpopen & Hupd).
  rewrite (start_project_reaches_spawn _ _ _ _ _ _ _ _
             Hlive Hpath Hvenv Hinfo Hlog Hopen Henv), Hpopen, Hupd in Hstart.
  simpl in Hstart. injection Hstart as <- <-.
  exists project_path, log_target, user_env. eexists.
  split; [exact Hpath|]. split; [by rewrite Hinfo|]. simpl.
  split; [apply lookup_new_proc|]. split; [apply lookup_insert_eq|].
  do 5 (split; [reflexivity|]).
  split; [intros f ->; set_solver|]. split.
  - destruct (decide (path_join project_path ".env" ∈
        match log_target with VStr f => {[f]} ∪ files st | _ => files st end))
      as [Hin|Hin].
    + rewrite (bool_decide_eq_true_2 _ Hin) in Henv. by left.
    + rewrite (bool_decide_eq_false_2 _ Hin) in Henv. right.
      split; [done|congruence].
  - intros k. simpl. rewrite lookup_union.
    by destruct (user_env !! k), (environ E !! k).
Qed.

Lemma start_project_child_parameters_witness :
  (proc_env <$> procs (start_project Example2.E_dotenv "p" Example.project
                         Example2.st_dotenv).1)
    = [ {[ "HOME" := "/root"; "MODE" := "prod"; "TOKEN" := "t0" ]} ] /\
  (cwd <$> procs (start_project Example2.E_dotenv "p" Example.project
                    Example2.st_dotenv).1)
    = ["/srv/p"].
Proof.
  destruct (start_project_child_parameters Example2.E_dotenv "p" Example.project
              Example2.st_dotenv
              (start_project Example2.E_dotenv "p" Example.project Example2.st_dotenv).1
              (msg_started 4242))
    as (project_path & log_target & user_env & p & _).
  - vm_compute. reflexivity.
  - vm_compute. split; reflexivity.
Defined.

Ltac same_but_registry :=
  do 5 (split; [reflexivity|]);
  let other := fresh "other" in
  let Hne := fresh "Hne" in
  intros other Hne;
  rewrite ?lookup_insert_ne by done;
  rewrite ?lookup_delete_ne by done;
  reflexivity.

(** X7: a registry entry whose process has exited is treated by a start
    exactly like no entry: the answer is the same, and so are the process
    table, the files, the stored documents and the trace afterwards.  The
    entries of the other projects agree as well. *)
Theorem start_project_stale_entry_like_absent E project_id project st :
  is_live st project_id = false ->
  let st_absent := set_running_processes (delete project_id (running_processes st)) st in
  let run := start_project E project_id project st in
  let run_absent := start_project E project_id project st_absent in
  run.2 = run_absent.2 /\
  procs run.1 = procs run_absent.1 /\
  files run.1 = files run_absent.1 /\
  docs run.1 = docs run_absent.1 /\
  trace run.1 = trace run_absent.1 /\
  (forall other, other <> project_id ->
     running_processes run.1 !! other = running_processes run_absent.1 !! other).
Proof.
  intros Hlive st_absent run run_absent. subst run run_absent.
  assert (Hlive' : is_live st_absent project_id = false).
  { apply is_live_absent. subst st_absent. simpl. apply lookup_delete_eq. }
  unfold start_project. rewrite Hlive, Hlive'. subst st_absent.
  run_monad. simpl.
  destruct (p_path project) as [project_path|]; simpl; [|same_but_registry].
  destruct (bool_decide (venv_python_of project_path ∈ files st)); simpl;
    [|same_but_registry].
  destruct (p_execution_info project) as [exec_info|]; simpl; [|same_but_registry].
  destruct (exec_info !! "log_file") as [log_target|]; simpl; [|same_but_registry].
  destruct (open_result E); simpl; [same_but_registry|].
  destruct log_target; simpl.
  all: split_on_dotenv.
  all: try (destruct (dotenv_result E); simpl; [|same_but_registry]).
  all: destruct (popen_result E); simpl; [|same_but_registry].
  all: destruct (update_result E); simpl; same_but_registry.
Qed.

Lemma start_project_stale_entry_like_absent_witness :
  (start_project Example.E_signal_fails "p" Example.project Example.st_exited).2
    = Ret (true, msg_started 4243).
Proof.
  destruct (start_project_stale_entry_like_absent Example.E_signal_fails "p"
              Example.project Example.st_exited) as (H & _).
  - vm_compute. reflexivity.
  - rewrite H. vm_compute. reflexivity.
Defined.

(** X5: the command a start runs always has the interpreter of the
    isolated runtime in front, whatever the configured command line is; what
    follows are proper tokens, none of them empty and none containing a
    separator.  A command line that is empty or made of separators only is no
    error: the interpreter is then run without arguments.  For a command line
    that is text (the UTF-8 bytes of code points), what follows the
    interpreter are tokens as Python sees them: the encodings of non-empty
    runs of code points none of which is whitespace, U+0085, U+00A0 and the
    other whitespace beyond ASCII included. *)
Theorem run_cmd_of_arguments_are_tokens venv_python project :
  (exists args,
     run_cmd_of venv_python project = venv_python :: args /\
     Forall is_token args) /\
  (forall cmd,
     p_run_command project = Some cmd -> blank cmd = true ->
     run_cmd_of venv_python project = [venv_python]) /\
  (forall cps,
     Forall is_scalar cps ->
     p_run_command project = Some (encode cps) ->
     exists tokens,
       Forall is_text_token tokens /\
       run_cmd_of venv_python project = venv_python :: (encode <$> tokens)).
Proof.
  unfold run_cmd_of. split; [|split].
  - eexists. split; [reflexivity|].
    pose proof (split_go_tokens (default "python main.py" (p_run_command project))
                  "" 0 eq_refl) as Htok.
    unfold split. destruct Htok; simpl; [constructor|done].
  - intros cmd -> Hblank. simpl. unfold split. by rewrite split_go_blank.
  - intros cps Hcps ->.
    destruct (text_is_laid_out cps Hcps) as (lead & items & Hlead & Hlaid & ->).
    change (default "python main.py" (Some ?x)) with x.
    rewrite (split_layout lead items Hlead Hlaid).
    pose proof (well_laid_tokens items Hlaid) as Htok.
    exists (tail items.*1). split.
    + destruct Htok; simpl; [constructor|done].
    + by destruct (items.*1).
Qed.

Lemma run_cmd_of_arguments_are_tokens_witness :
  run_cmd_of "/srv/p/.venv/bin/python"
    (mkProject (Some "/srv/p") None (Some "   ") None)
    = ["/srv/p/.venv/bin/python"].
Proof.
  destruct (run_cmd_of_arguments_are_tokens "/srv/p/.venv/bin/python"
              (mkProject (Some "/srv/p") None (Some "   ") None)) as (_ & H & _).
  apply (H "   "); reflexivity.
Defined.

(** X6: splitting undoes joining.  Take tokens as Python sees them, each
    a non-empty run of code points none of which is whitespace (the ASCII
    separators, U+0085, U+00A0, U+1680, U+2000..U+200A, U+2028, U+2029,
    U+202F, U+205F, U+3000).  A command line that is these tokens joined by
    single spaces splits back into exactly these tokens, so it is run as the
    interpreter followed by all of them but the first, each one unchanged. *)
Theorem run_cmd_of_join_spaces venv_python project first rest :
  Forall is_text_token (first :: rest) ->
  p_run_command project = Some (join_spaces (encode <$> first :: rest)) ->
  split (join_spaces (encode <$> first :: rest)) = encode <$> first :: rest /\
  run_cmd_of venv_python project = venv_python :: (encode <$> rest).
Proof.
  intros Htok Hcmd. split; [by apply split_join_spaces|].
  unfold run_cmd_of. rewrite Hcmd.
  change (default "python main.py" (Some ?x)) with x.
  by rewrite (split_join_spaces _ Htok).
Qed.

Lemma run_cmd_of_join_spaces_witness :
  run_cmd_of "/srv/p/.venv/bin/python"
    (mkProject None None (Some "node app.py --port 80") None)
    = ["/srv/p/.venv/bin/python"; "app.py"; "--port"; "80"].
Proof.
  apply (run_cmd_of_join_spaces "/srv/p/.venv/bin/python"
           (mkProject None None (Some "node app.py --port 80") None)
           (codes "node") [codes "app.py"; codes "--port"; codes "80"]).
  - repeat (constructor; [apply is_text_token_b_sound; vm_compute; reflexivity|]).
    constructor.
  - vm_compute. reflexivity.
Defined.

(** ** The ways through a stop *)

(** A stop that finds its child alive takes one of the ways of
    [stop_path]. *)
Lemma stop_project_live_path E project_id st h :
  running_processes st !! project_id = Some h ->
  poll_is_None st h = true ->
  exists t gone updated r,
    stop_path E project_id h t gone updated r /\
    stop_project E project_id st
      = (after_stop st project_id h t gone updated, Ret r).
Proof.
  intros Hreg Hpoll. unfold stop_project.
  rewrite Hreg, poll_set_running_processes, Hpoll. run_monad. simpl.
  unfold after_stop, mark_exited, log_event, set_procs, set_docs,
    set_running_processes. simpl.
  destruct (terminate_result E) eqn:Hterm; simpl.
  { eexists _, false, false, _. split; [by apply path_signal_failed|done]. }
  destruct (wait_result E) as [| |e] eqn:Hwait; simpl.
  - destruct (update_result E) eqn:Hupd; simpl.
    + eexists _, true, false, _.
      split; [by apply path_exited_update_failed|]. by rewrite <- !app_assoc.
    + eexists _, true, true, _.
      split; [by apply path_exited|]. by rewrite <- !app_assoc.
  - destruct (kill_result E) eqn:Hkill; simpl;
      [|destruct (update_result E) eqn:Hupd; simpl].
    + eexists _, false, false, _.
      split; [apply path_kill_failed; unfold timed_out; eauto|].
      by rewrite <- !app_assoc.
    + eexists _, true, false, _.
      split; [apply path_killed_update_failed; unfold timed_out; eauto|].
      by rewrite <- !app_assoc.
    + eexists _, true, true, _.
      split; [apply path_killed; unfold timed_out; eauto|].
      by rewrite <- !app_assoc.
  - destruct (decide (exn_class e = TimeoutExpiredC)) as [Hclass|Hclass]; simpl.
    + destruct (kill_result E) eqn:Hkill; simpl;
        [|destruct (update_result E) eqn:Hupd; simpl].
      * eexists _, false, false, _.
        split; [apply path_kill_failed; unfold timed_out; eauto|].
        by rewrite <- !app_assoc.
      * eexists _, true, false, _.
        split; [apply path_killed_update_failed; unfold timed_out; eauto|].
        by rewrite <- !app_assoc.
      * eexists _, true, true, _.
        split; [apply path_killed; unfold timed_out; eauto|].
        by rewrite <- !app_assoc.
    + eexists _, false, false, _.
      split; [by eapply path_wait_failed|]. by rewrite <- !app_assoc.
Qed.

Lemma not_timed_out_exited : ~ timed_out WaitExited.
Proof. intros [?|(e & ? & _)]; discriminate. Qed.

Lemma default_doc_lookup (o : option Doc) (k : string) :
  default ∅ o !! k = o ≫= (.!! k).
Proof. destruct o; simpl; [done|apply lookup_empty]. Qed.

(** What a stop writes to the stored document, and what it keeps. *)
Lemma stopped_info_lookups (d : Doc) :
  (stopped_info ∪ d) !! "is_running" = Some (VBool false) /\
  (stopped_info ∪ d) !! "pid" = Some VNone /\
  (stopped_info ∪ d) !! "status" = Some (VStr "stopped") /\
  forall k, k ∉ ["is_running"; "pid"; "status"] ->
            (stopped_info ∪ d) !! k = d !! k.
Proof.
  split; [by apply lookup_union_Some_l|].
  split; [by apply lookup_union_Some_l|].
  split; [by apply lookup_union_Some_l|].
  intros k Hk. apply lookup_union_r. unfold stopped_info. simpl.
  rewrite !lookup_insert_ne; [apply lookup_empty|..];
    intros <-; apply Hk; set_solver.
Qed.

Lemma poll_after_stop_gone st project_id h t updated :
  poll_is_None (after_stop st project_id h t true updated) h = false.
Proof.
  unfold poll_is_None, after_stop. simpl. rewrite list_lookup_alter_eq.
  by destruct (procs st !! h).
Qed.

(** X8: the graceful way.  When the child is alive, takes the termination
    signal and exits within the five seconds of the wait, and the database
    call works, the stop answers success; the child is gone, the project has
    no registry entry, and no kill was sent: the events are the signal, the
    wait with timeout 5 and the update.  The stored document then reads
    is_running = False, pid = None, status = stopped, and keeps every other
    key, the time of the last run and the log file among them. *)
Theorem stop_project_graceful E project_id st process :
  running_processes st !! project_id = Some process ->
  poll_is_None st process = true ->
  terminate_result E = None ->
  wait_result E = WaitExited ->
  update_result E = None ->
  let st' := (stop_project E project_id st).1 in
  (stop_project E project_id st).2 = Ret (true, msg_stopped) /\
  poll_is_None st' process = false /\
  running_processes st' !! project_id = None /\
  trace st' = trace st ++ [EvTerminate process; EvWait process 5;
                           EvUpdate project_id stopped_info] /\
  exists d,
    docs st' !! project_id = Some d /\
    d !! "is_running" = Some (VBool false) /\
    d !! "pid" = Some VNone /\
    d !! "status" = Some (VStr "stopped") /\
    forall k, k ∉ ["is_running"; "pid"; "status"] ->
              d !! k = docs st !! project_id ≫= (.!! k).
Proof.
  intros Hreg Hpoll Hterm Hwait Hupd st'. subst st'.
  destruct (stop_project_live_path E _ _ _ Hreg Hpoll)
    as (t & gone & updated & r & Hpath & ->).
  inversion Hpath; subst; try congruence.
  all: try (rewrite Hwait in *; by destruct not_timed_out_exited).
  simpl. split; [done|]. split; [apply poll_after_stop_gone|].
  split; [apply lookup_delete_eq|]. split; [done|].
  eexists. split; [apply lookup_insert_eq|].
  destruct (stopped_info_lookups (default ∅ (docs st !! project_id)))
    as (Hrun & Hpid & Hstatus & Hkeep).
  do 3 (split; [done|]). intros k Hk. rewrite (Hkeep k Hk).
  apply default_doc_lookup.
Qed.

Lemma stop_project_graceful_witness :
  (stop_project Example.E0 "p" Example.st_started).2 = Ret (true, msg_stopped) /\
  (alive <$> procs (stop_project Example.E0 "p" Example.st_started).1) = [false] /\
  (docs (stop_project Example.E0 "p" Example.st_started).1 !! "p"
     ≫= (.!! "last_run_time"))
    = Some (VDatetime (mkDatetime 2024 1 2 3 4 5)).
Proof.
  destruct (stop_project_graceful Example.E0 "p" Example.st_started 0%nat)
    as (Hr & _ & _ & _ & d & Hd & _ & _ & _ & Hkeep).
  - vm_compute. reflexivity.
  - vm_compute. reflexivity.
  - reflexivity.
  - reflexivity.
  - reflexivity.
  - split; [exact Hr|]. split; [vm_compute; reflexivity|].
    rewrite Hd. simpl. rewrite Hkeep.
    + vm_compute. reflexivity.
    + intros Hin. repeat (apply elem_of_cons in Hin as [Hin|Hin]; [discriminate Hin|]).
      by apply elem_of_nil in Hin.
Defined.

(** Nothing is an element of an explicit list of events of other kinds. *)
Ltac no_member :=
  intros;
  match goal with
  | Hin : _ ∈ _ |- _ =>
      repeat (apply elem_of_cons in Hin as [Hin|Hin]; [discriminate Hin|]);
      by apply elem_of_nil in Hin
  end.

(** X9: a kill is sent only as the last resort.  Whatever events a stop
    issues, a kill among them means that the wait ran into its timeout; it is
    then sent to the child that was registered, after the termination signal
    and the wait, which always uses the timeout of five seconds. *)
Theorem stop_project_kills_only_after_timeout E project_id st :
  exists t,
    trace (stop_project E project_id st).1 = trace st ++ t /\
    (forall h, EvKill h ∈ t ->
       running_processes st !! project_id = Some h /\
       timed_out (wait_result E) /\
       exists t', t = EvTerminate h :: EvWait h 5 :: EvKill h :: t') /\
    (forall h timeout, EvWait h timeout ∈ t -> timeout = 5).
Proof.
  destruct (running_processes st !! project_id) as [process|] eqn:Hreg.
  2: { exists []. unfold stop_project. rewrite Hreg. simpl.
       split; [by rewrite app_nil_r|]. split; no_member. }
  destruct (poll_is_None st process) eqn:Hpoll.
  2: { exists []. unfold stop_project.
       rewrite Hreg, poll_set_running_processes, Hpoll. simpl.
       split; [by rewrite app_nil_r|]. split; no_member. }
  destruct (stop_project_live_path E _ _ _ Hreg Hpoll)
    as (t & gone & updated & r & Hpath & ->).
  exists t. split; [done|].
  inversion Hpath; subst; (split; [intros h0 Hin|intros h0 timeout Hin]).
  all: repeat (apply elem_of_cons in Hin as [Hin|Hin];
               [first [discriminate Hin | injection Hin as <- <- | injection Hin as <-]|]).
  all: try (by apply elem_of_nil in Hin).
  all: try reflexivity.
  all: split; [done|]; split; [done|]; eauto.
Qed.

Lemma stop_project_kills_only_after_timeout_witness :
  trace (stop_project Example2.E_stubborn "p" Example.st_started).1
    = trace Example.st_started
        ++ [EvTerminate 0%nat; EvWait 0%nat 5; EvKill 0%nat;
            EvUpdate "p" stopped_info].
Proof.
  destruct (stop_project_kills_only_after_timeout Example2.E_stubborn "p"
              Example.st_started) as (t & Ht & Hkill & _).
  rewrite Ht. f_equal.
  assert (Hin : EvKill 0%nat ∈ t).
  { assert (Ht' : t = [EvTerminate 0%nat; EvWait 0%nat 5; EvKill 0%nat;
                       EvUpdate "p" stopped_info]).
    { apply (app_inv_head (trace Example.st_started)). rewrite <- Ht.
      vm_compute. reflexivity. }
    rewrite Ht'. apply elem_of_cons. right. apply elem_of_cons. right.
    apply elem_of_cons. by left. }
  destruct (Hkill _ Hin) as (_ & _ & t' & ->).
  apply (app_inv_head (trace Example.st_started)). rewrite <- Ht.
  vm_compute. reflexivity.
Defined.

(** Every stop leaves a state of the form [after_stop]; the child is marked
    as gone or the document updated only when the project had a live
    entry. *)
Lemma stop_project_state E project_id st :
  exists h t gone updated,
    (stop_project E project_id st).1 = after_stop st project_id h t gone updated /\
    (gone = true \/ updated = true ->
     running_processes st !! project_id = Some h /\ poll_is_None st h = true).
Proof.
  destruct (running_processes st !! project_id) as [process|] eqn:Hreg.
  2: { exists 0%nat, [], false, false. unfold stop_project, after_stop.
       rewrite Hreg. simpl. rewrite app_nil_r, delete_id by done.
       split; [by destruct st|]. by intros [?|?]. }
  destruct (poll_is_None st process) eqn:Hpoll.
  2: { exists process, [], false, false. unfold stop_project, after_stop.
       rewrite Hreg, poll_set_running_processes, Hpoll. simpl.
       rewrite app_nil_r. split; [done|]. by intros [?|?]. }
  destruct (stop_project_live_path E _ _ _ Hreg Hpoll)
    as (t & gone & updated & r & _ & ->).
  exists process, t, gone, updated. by split.
Qed.

(** X10: when the child has exited after the termination signal but the
    database call raises, the stop answers with a failure carrying the
    database's error text although the child is gone: it is no longer alive,
    the project has no registry entry, and the stored document is what it
    was, so a later stop answers "not running". *)
Theorem stop_project_reports_database_failure E E' project_id st process e :
  running_processes st !! project_id = Some process ->
  poll_is_None st process = true ->
  terminate_result E = None ->
  wait_result E = WaitExited ->
  update_result E = Some e ->
  let st' := (stop_project E project_id st).1 in
  (stop_project E project_id st).2 = Ret (false, msg_stop_failed e) /\
  poll_is_None st' process = false /\
  running_processes st' !! project_id = None /\
  docs st' = docs st /\
  stop_project E' project_id st' = (st', Ret (false, msg_not_running)).
Proof.
  intros Hreg Hpoll Hterm Hwait Hupd st'. subst st'.
  destruct (stop_project_live_path E _ _ _ Hreg Hpoll)
    as (t & gone & updated & r & Hpath & ->).
  inversion Hpath; subst; try congruence.
  all: try (rewrite Hwait in *; by destruct not_timed_out_exited).
  simpl. assert (e0 = e) as -> by congruence.
  split; [done|]. split; [apply poll_after_stop_gone|].
  split; [apply lookup_delete_eq|]. split; [done|].
  unfold stop_project. simpl. by rewrite lookup_delete_eq.
Qed.

Lemma stop_project_reports_database_failure_witness :
  (stop_project Example2.E_stop_db_down "p" Example.st_started).2
    = Ret (false, msg_stop_failed Example.boom) /\
  poll_is_None (stop_project Example2.E_stop_db_down "p" Example.st_started).1 0%nat
    = false.
Proof.
  destruct (stop_project_reports_database_failure Example2.E_stop_db_down
              Example.E0 "p" Example.st_started 0%nat Example.boom)
    as (Hr & Hgone & _).
  - vm_compute. reflexivity.
  - vm_compute. reflexivity.
  - reflexivity.
  - reflexivity.
  - reflexivity.
  - by split.
Defined.

(** X11: a stop touches its own child only.  The process table keeps its
    length and the files are what they were; every child other than the one
    registered for the project is exactly as before, and no child comes back
    to life or changes its PID; the registry entries and the stored documents
    of the other projects are not touched. *)
Theorem stop_project_touches_only_its_child E project_id st :
  let st' := (stop_project E project_id st).1 in
  length (procs st') = length (procs st) /\
  files st' = files st /\
  (forall h, running_processes st !! project_id <> Some h ->
             procs st' !! h = procs st !! h) /\
  (forall h p', procs st' !! h = Some p' ->
     exists p, procs st !! h = Some p /\ pid p' = pid p /\
               (alive p' = true -> alive p = true)) /\
  (forall other, other <> project_id ->
     running_processes st' !! other = running_processes st !! other /\
     docs st' !! other = docs st !! other).
Proof.
  intros st'. subst st'.
  destruct (stop_project_state E project_id st)
    as (h & t & gone & updated & -> & Hlive).
  unfold after_stop. simpl.
  split; [destruct gone; [apply length_alter|done]|]. split; [done|].
  split; [|split].
  - intros h' Hh'. destruct gone; [|done].
    destruct Hlive as [Hreg _]; [by left|].
    apply list_lookup_alter_ne. congruence.
  - intros h' p' Hp'. destruct gone; [|eauto].
    destruct (decide (h = h')) as [<-|Hne].
    + rewrite list_lookup_alter_eq in Hp'.
      destruct (procs st !! h) as [p|]; [|done]. simpl in Hp'.
      injection Hp' as <-. exists p. by repeat split.
    + rewrite list_lookup_alter_ne in Hp' by done. eauto.
  - intros other Hne. split; [by apply lookup_delete_ne|].
    destruct updated; [by apply lookup_insert_ne|done].
Qed.

Lemma stop_project_touches_only_its_child_witness :
  procs (stop_project Example.E0 "q" Example.st_started).1 !! 0%nat
    = procs Example.st_started !! 0%nat /\
  running_processes (stop_project Example.E0 "q" Example.st_started).1 !! "p"
    = Some 0%nat.
Proof.
  destruct (stop_project_touches_only_its_child Example.E0 "q" Example.st_started)
    as (_ & _ & Hprocs & _ & Hother).
  split.
  - apply Hprocs. vm_compute. discriminate.
  - destruct (Hother "p") as [-> _]; [discriminate|]. vm_compute. reflexivity.
Defined.

(** ** What the queries see *)

Lemma get_project_status_simple E project_id project st exec_info :
  p_execution_info project = Some exec_info ->
  get_project_status E project_id project false st
    = (st, Ret (if is_live st project_id then status_running else status_stopped)).
Proof.
  intros Hinfo. unfold get_project_status. rewrite Hinfo. run_monad. simpl.
  by destruct (is_live st project_id).
Qed.

Lemma get_project_usage_not_live E project_id st :
  is_live st project_id = false ->
  get_project_usage E project_id st = (st, Ret msg_not_running) \/
  get_project_usage E project_id st = (st, Ret msg_usage_stopped).
Proof.
  unfold is_live, get_project_usage.
  destruct (running_processes st !! project_id) as [process|]; [|by left].
  intros ->. by right.
Qed.

Lemma get_project_usage_live E project_id st :
  is_live st project_id = true ->
  exists process,
    running_processes st !! project_id = Some process /\
    get_project_usage E project_id st
      = (st, Ret match sample_result E with
                 | Ret s => usage_report (handle_pid st process) s
                 | Raise e => msg_usage_failed e
                 end).
Proof.
  unfold is_live, get_project_usage.
  destruct (running_processes st !! project_id) as [process|]; [|done].
  intros Hpoll. exists process. split; [done|]. rewrite Hpoll. run_monad. simpl.
  by destruct (sample_result E).
Qed.

(** X13: the operations agree on whether a project is running.  For a
    project dict with its execution info, the plain status is "Running"
    exactly when a start would answer "already running", and exactly then a
    usage query goes on to sample the child, answering with the report or
    with "could not retrieve usage"; otherwise the status is "Stopped" and
    the usage query answers "not running" or "stopped". *)
Theorem liveness_views_agree E project_id project st :
  is_Some (p_execution_info project) ->
  ((get_project_status E project_id project false st).2 = Ret status_running <->
   (start_project E project_id project st).2 = Ret (false, msg_already_running)) /\
  ((get_project_status E project_id project false st).2 = Ret status_running <->
   (exists child s, (get_project_usage E project_id st).2 = Ret (usage_report child s)) \/
   (exists e, (get_project_usage E project_id st).2 = Ret (msg_usage_failed e))) /\
  ((get_project_status E project_id project false st).2 = Ret status_stopped <->
   (get_project_usage E project_id st).2 = Ret msg_not_running \/
   (get_project_usage E project_id st).2 = Ret msg_usage_stopped).
Proof.
  intros [exec_info Hinfo].
  rewrite (get_project_status_simple _ _ _ _ _ Hinfo). simpl.
  destruct (is_live st project_id) eqn:Hlive.
  - destruct (get_project_usage_live E _ _ Hlive) as (process & Hreg & ->). simpl.
    split; [|split].
    + split; [|done]. intros _. unfold start_project. by rewrite Hlive.
    + split; [|done]. intros _. destruct (sample_result E); eauto.
    + split; [discriminate|].
      destruct (sample_result E); intros [Hbad|Hbad]; discriminate Hbad.
  - split; [|split].
    + split; [discriminate|]. intros Hbad.
      destruct (start_project_results E project_id project st) as [[Hl _]|[_ Hr]];
        [congruence|].
      rewrite Hbad in Hr. destruct Hr as [Hr|[[e Hr]|[child Hr]]].
      * exfalso. apply msg_venv_missing_not_already_running. congruence.
      * exfalso. apply (msg_execution_failed_not_already_running e). congruence.
      * discriminate Hr.
    + split; [discriminate|].
      destruct (get_project_usage_not_live E _ _ Hlive) as [-> | ->]; simpl.
      all: intros [(child & s & Hbad)|(e & Hbad)]; discriminate Hbad.
    + split; [|done]. intros _.
      destruct (get_project_usage_not_live E _ _ Hlive) as [-> | ->]; simpl; eauto.
Qed.

Lemma liveness_views_agree_witness :
  (start_project Example.E0 "p" Example.project Example.st_started).2
    = Ret (false, msg_already_running).
Proof.
  destruct (liveness_views_agree Example.E0 "p" Example.project Example.st_started)
    as ([H _] & _).
  - eexists. reflexivity.
  - apply H. vm_compute. reflexivity.
Defined.

(** X14: the plain status is one of the two indicators and nothing else,
    and a status query never changes the state.  It does not consult the
    database: the answer is the same whatever documents are stored.  The
    environment is asked for the uptime only in the detailed view of a
    running project; there, environments in which the inspection raises give
    the same text, whatever the error is. *)
Theorem get_project_status_plain_and_detailed E E' project_id project st :
  is_Some (p_execution_info project) ->
  get_project_status E project_id project false st
    = (st, Ret (if is_live st project_id then status_running else status_stopped)) /\
  (forall detailed, (get_project_status E project_id project detailed st).1 = st) /\
  (forall detailed stored,
     (get_project_status E project_id project detailed (set_docs stored st)).2
       = (get_project_status E project_id project detailed st).2) /\
  (is_live st project_id = false ->
   get_project_status E project_id project true st
     = get_project_status E' project_id project true st) /\
  (forall e e', uptime_result E = Raise e -> uptime_result E' = Raise e' ->
     get_project_status E project_id project true st
       = get_project_status E' project_id project true st).
Proof.
  intros [exec_info Hinfo].
  split; [by apply get_project_status_simple with exec_info|].
  unfold get_project_status. rewrite Hinfo. run_monad. simpl.
  split; [|split; [|split]].
  - intros detailed.
    destruct (is_live st project_id), detailed, (p_name project); reflexivity.
  - intros detailed stored.
    change (is_live (set_docs stored st) project_id) with (is_live st project_id).
    destruct (is_live st project_id), detailed, (p_name project); reflexivity.
  - intros ->. reflexivity.
  - intros e e' -> ->. reflexivity.
Qed.

Lemma get_project_status_plain_and_detailed_witness :
  get_project_status Example.E0 "p" Example.project false Example.st_started
    = (Example.st_started, Ret status_running) /\
  get_project_status Example.E0 "p" Example.project false Example.st_exited
    = (Example.st_exited, Ret status_stopped).
Proof.
  destruct (get_project_status_plain_and_detailed Example.E0 Example.E0 "p"
              Example.project Example.st_started) as (H1 & _);
    [eexists; reflexivity|].
  destruct (get_project_status_plain_and_detailed Example.E0 Example.E0 "p"
              Example.project Example.st_exited) as (H2 & _);
    [eexists; reflexivity|].
  split; [rewrite H1|rewrite H2]; vm_compute; reflexivity.
Defined.

(** X12: after a stop the supervisor regards the project as not running,
    however the stop went: the registry has no live entry, a second stop
    answers "not running" and changes nothing, a usage query answers "not
    running", and the plain status is "Stopped". *)
Theorem stop_project_leaves_project_not_running E E' project_id project st :
  let st' := (stop_project E project_id st).1 in
  is_live st' project_id = false /\
  stop_project E' project_id st' = (st', Ret (false, msg_not_running)) /\
  get_project_usage E' project_id st' = (st', Ret msg_not_running) /\
  (is_Some (p_execution_info project) ->
   get_project_status E' project_id project false st' = (st', Ret status_stopped)).
Proof.
  intros st'.
  assert (Hgone : running_processes st' !! project_id = None).
  { subst st'. destruct (stop_project_outcome E project_id st) as (-> & _).
    apply lookup_delete_eq. }
  pose proof (is_live_absent _ _ Hgone) as Hlive.
  split; [exact Hlive|]. split; [|split].
  - unfold stop_project. by rewrite Hgone.
  - unfold get_project_usage. by rewrite Hgone.
  - intros [exec_info Hinfo].
    rewrite (get_project_status_simple _ _ _ _ _ Hinfo). by rewrite Hlive.
Qed.

Lemma stop_project_leaves_project_not_running_witness :
  get_project_status Example.E0 "p" Example.project false
    (stop_project Example.E_signal_fails "p" Example.st_started).1
  = ((stop_project Example.E_signal_fails "p" Example.st_started).1,
     Ret status_stopped) /\
  (alive <$> procs (stop_project Example.E_signal_fails "p" Example.st_started).1)
    = [true].
Proof.
  destruct (stop_project_leaves_project_not_running Example.E_signal_fails
              Example.E0 "p" Example.project Example.st_started) as (_ & _ & _ & H).
  split; [apply H; eexists; reflexivity|]. vm_compute. reflexivity.
Defined.

Lemma poll_child_exits st h : poll_is_None (child_exits h st) h = false.
Proof.
  unfold poll_is_None, child_exits, mark_exited. simpl.
  rewrite list_lookup_alter_eq. by destruct (procs st !! h).
Qed.

(** X15: the exit of a child is noticed the next time the project is
    looked at, and not before.  When the registered child exits by itself
    nothing is written: registry and stored documents stay as they are.
    From then on the project counts as not running: the plain status is
    "Stopped", a usage query answers "stopped", a stop answers "already
    stopped", and a start no longer answers "already running". *)
Theorem child_exit_is_noticed_lazily E project_id project st h :
  running_processes st !! project_id = Some h ->
  let st' := child_exits h st in
  running_processes st' = running_processes st /\
  docs st' = docs st /\
  is_live st' project_id = false /\
  (is_Some (p_execution_info project) ->
   get_project_status E project_id project false st' = (st', Ret status_stopped)) /\
  get_project_usage E project_id st' = (st', Ret msg_usage_stopped) /\
  (stop_project E project_id st').2 = Ret (false, msg_already_stopped) /\
  (start_project E project_id project st').2 <> Ret (false, msg_already_running).
Proof.
  intros Hreg st'.
  assert (Hreg' : running_processes st' !! project_id = Some h) by done.
  assert (Hpoll : poll_is_None st' h = false) by apply poll_child_exits.
  assert (Hlive : is_live st' project_id = false).
  { by rewrite (is_live_lookup _ _ _ Hreg'). }
  do 3 (split; [done|]). split; [|split; [|split]].
  - intros [exec_info Hinfo].
    rewrite (get_project_status_simple _ _ _ _ _ Hinfo). by rewrite Hlive.
  - unfold get_project_usage. by rewrite Hreg', Hpoll.
  - unfold stop_project. by rewrite Hreg', poll_set_running_processes, Hpoll.
  - destruct (start_project_results E project_id project st') as [[Hl _]|[_ Hr]];
      [congruence|].
    destruct Hr as [Hr|[[e Hr]|[child Hr]]]; rewrite Hr; intros Hbad.
    + apply msg_venv_missing_not_already_running. congruence.
    + apply (msg_execution_failed_not_already_running e). congruence.
    + discriminate Hbad.
Qed.

Lemma child_exit_is_noticed_lazily_witness :
  get_project_usage Example.E0 "p" Example.st_exited
    = (Example.st_exited, Ret msg_usage_stopped) /\
  (docs Example.st_exited !! "p" ≫= (.!! "is_running")) = Some (VBool true).
Proof.
  destruct (child_exit_is_noticed_lazily Example.E0 "p" Example.project
              Example.st_started 0%nat) as (_ & _ & _ & _ & H & _).
  - vm_compute. reflexivity.
  - split; [exact H|]. vm_compute. reflexivity.
Defined.

(** ** Restart, persistence and the registry invariant *)



Lemma same_outside_lifecycle_refl project_id stored :
  same_outside_lifecycle project_id stored stored.
Proof. by split. Qed.

Lemma same_outside_lifecycle_trans project_id s1 s2 s3 :
  same_outside_lifecycle project_id s1 s2 ->
  same_outside_lifecycle project_id s2 s3 ->
  same_outside_lifecycle project_id s1 s3.
Proof.
  intros [Ha Hb] [Hc Hd]. split.
  - intros other Hne. by rewrite (Hc _ Hne), (Ha _ Hne).
  - intros k Hk. by rewrite (Hd _ Hk), (Hb _ Hk).
Qed.

(** Merging an update that has lifecycle keys only. *)
Lemma merge_same_outside_lifecycle project_id (data : Doc) stored :
  (forall k, k ∉ lifecycle_keys -> data !! k = None) ->
  same_outside_lifecycle project_id stored
    (<[project_id := data ∪ default ∅ (stored !! project_id)]> stored).
Proof.
  intros Hdata. split.
  - intros other Hne. by apply lookup_insert_ne.
  - intros k Hk. rewrite lookup_insert_eq. simpl.
    rewrite (lookup_union_r _ _ _ (Hdata k Hk)). apply default_doc_lookup.
Qed.

Lemma not_lifecycle_key k :
  k ∉ lifecycle_keys ->
  k <> "is_running" /\ k <> "pid" /\ k <> "last_run_time" /\ k <> "status".
Proof.
  intros Hk. repeat split; intros ->; apply Hk; unfold lifecycle_keys; set_solver.
Qed.

Lemma started_info_lifecycle_only child now k :
  k ∉ lifecycle_keys -> started_info child now !! k = None.
Proof.
  intros (H1 & H2 & H3 & H4)%not_lifecycle_key. unfold started_info. simpl.
  rewrite !lookup_insert_ne by done. apply lookup_empty.
Qed.

Lemma stopped_info_lifecycle_only k :
  k ∉ lifecycle_keys -> stopped_info !! k = None.
Proof.
  intros (H1 & H2 & H3 & H4)%not_lifecycle_key. unfold stopped_info. simpl.
  rewrite !lookup_insert_ne by done. apply lookup_empty.
Qed.

Lemma start_project_same_outside_lifecycle E project_id project st :
  same_outside_lifecycle project_id (docs st)
    (docs (start_project E project_id project st).1).
Proof.
  destruct (start_project_cases E project_id project st)
    as [(_ & _ & -> & _)|(project_path & exec_info & log_target & user_env & child &
          Hlive & Hpath & Hvenv & Hinfo & Hlog & Hopen & Henv & Hpopen)].
  - apply same_outside_lifecycle_refl.
  - rewrite (start_project_reaches_spawn _ _ _ _ _ _ _ _
               Hlive Hpath Hvenv Hinfo Hlog Hopen Henv), Hpopen.
    destruct (update_result E); simpl; [apply same_outside_lifecycle_refl|].
    apply merge_same_outside_lifecycle, started_info_lifecycle_only.
Qed.

Lemma stop_project_same_outside_lifecycle E project_id st :
  same_outside_lifecycle project_id (docs st)
    (docs (stop_project E project_id st).1).
Proof.
  destruct (stop_project_state E project_id st)
    as (h & t & gone & updated & -> & _).
  simpl. destruct updated; [|apply same_outside_lifecycle_refl].
  apply merge_same_outside_lifecycle, stopped_info_lifecycle_only.
Qed.

(** X17: starting, stopping and restarting a project write nothing but the
    lifecycle keys (is_running, pid, last_run_time, status) of that project's
    stored document.  The documents of the other projects, and every other
    key of the project's own document, such as the log file, are afterwards
    what they were before. *)
Theorem lifecycle_operations_keep_other_data E E' project_id project st :
  same_outside_lifecycle project_id (docs st)
    (docs (start_project E project_id project st).1) /\
  same_outside_lifecycle project_id (docs st)
    (docs (stop_project E project_id st).1) /\
  same_outside_lifecycle project_id (docs st)
    (docs (restart_project E E' project_id project st).1) /\
  (forall other, other <> project_id ->
     docs (restart_project E E' project_id project st).1 !! other
       = docs st !! other) /\
  docs (restart_project E E' project_id project st).1 !! project_id
      ≫= (.!! "log_file")
    = docs st !! project_id ≫= (.!! "log_file").
Proof.
  assert (Hrestart : same_outside_lifecycle project_id (docs st)
            (docs (restart_project E E' project_id project st).1)).
  { rewrite restart_project_eq.
    eapply same_outside_lifecycle_trans;
      [apply (stop_project_same_outside_lifecycle E)|].
    apply (start_project_same_outside_lifecycle E' project_id project
             (log_event (EvSleep 1) (stop_project E project_id st).1)). }
  split; [apply start_project_same_outside_lifecycle|].
  split; [apply stop_project_same_outside_lifecycle|].
  split; [exact Hrestart|]. destruct Hrestart as [Hother Hkeys].
  split; [exact Hother|]. apply Hkeys.
  intros Hin. unfold lifecycle_keys in Hin.
  repeat (apply elem_of_cons in Hin as [Hin|Hin]; [discriminate Hin|]).
  by apply elem_of_nil in Hin.
Qed.

Lemma lifecycle_operations_keep_other_data_witness :
  docs (restart_project Example.E0 Example.E_signal_fails "p" Example.project
          Example.st_started).1 !! "p" ≫= (.!! "log_file")
    = Some (VStr "/srv/p/out.log").
Proof.
  destruct (lifecycle_operations_keep_other_data Example.E0 Example.E_signal_fails
              "p" Example.project Example.st_started) as (_ & _ & _ & _ & ->).
  vm_compute. reflexivity.
Defined.

Lemma registry_ok_same st st' :
  running_processes st' = running_processes st ->
  length (procs st') = length (procs st) ->
  registry_ok st -> registry_ok st'.
Proof. unfold registry_ok. intros -> ->. done. Qed.

Lemma registry_ok_delete st st' project_id :
  running_processes st' = delete project_id (running_processes st) ->
  length (procs st') = length (procs st) ->
  registry_ok st -> registry_ok st'.
Proof.
  unfold registry_ok. intros -> -> [Hvalid Hinj]. split.
  - intros id h [_ Hh]%lookup_delete_Some. eauto.
  - intros id1 id2 h [_ H1]%lookup_delete_Some [_ H2]%lookup_delete_Some. eauto.
Qed.

Lemma registry_ok_spawn st st' project_id p :
  running_processes st'
    = <[project_id := length (procs st)]> (running_processes st) ->
  procs st' = procs st ++ [p] ->
  registry_ok st -> registry_ok st'.
Proof.
  unfold registry_ok. intros -> -> [Hvalid Hinj].
  rewrite length_app. simpl. split.
  - intros id h [[_ <-]|[_ Hh]]%lookup_insert_Some; [lia|].
    apply Hvalid in Hh. lia.
  - intros id1 id2 h [[<- <-]|[Hne1 H1]]%lookup_insert_Some
                     [[<- Hh]|[Hne2 H2]]%lookup_insert_Some.
    + done.
    + apply Hvalid in H2. lia.
    + apply Hvalid in H1. lia.
    + eauto.
Qed.

Lemma start_project_registry_ok E project_id project st :
  registry_ok st -> registry_ok (start_project E project_id project st).1.
Proof.
  intros Hok.
  destruct (start_project_cases E project_id project st)
    as [(Hp & Hr & _)|(project_path & exec_info & log_target & user_env & child &
          Hlive & Hpath & Hvenv & Hinfo & Hlog & Hopen & Henv & Hpopen)].
  - apply (registry_ok_same st); [done|by rewrite Hp|done].
  - rewrite (start_project_reaches_spawn _ _ _ _ _ _ _ _
               Hlive Hpath Hvenv Hinfo Hlog Hopen Henv), Hpopen.
    destruct (update_result E); simpl.
    all: by eapply (registry_ok_spawn st).
Qed.

Lemma stop_project_registry_ok E project_id st :
  registry_ok st -> registry_ok (stop_project E project_id st).1.
Proof.
  destruct (stop_project_state E project_id st)
    as (h & t & gone & updated & -> & _).
  apply (registry_ok_delete st _ project_id); [done|].
  simpl. destruct gone; [apply length_alter|done].
Qed.

(** X18: the registry stays well-formed.  If every registered handle
    refers to a child that was spawned and no child is registered under two
    projects, the same holds after a start, a stop, a restart, and after a
    child exits by itself; it holds when nothing is registered.  So the child
    a registered project maps to is always there to be polled. *)
Theorem registry_ok_is_kept E E' project_id project st h :
  (forall st0, running_processes st0 = ∅ -> registry_ok st0) /\
  (registry_ok st ->
   registry_ok (start_project E project_id project st).1 /\
   registry_ok (stop_project E project_id st).1 /\
   registry_ok (restart_project E E' project_id project st).1 /\
   registry_ok (child_exits h st) /\
   forall id process,
     running_processes st !! id = Some process ->
     exists p, procs st !! process = Some p /\
               poll_is_None st process = alive p /\
               handle_pid st process = pid p).
Proof.
  split.
  - intros st0 Hempty. unfold registry_ok. rewrite Hempty. split.
    + intros id process Hbad. by rewrite lookup_empty in Hbad.
    + intros id1 id2 process Hbad. by rewrite lookup_empty in Hbad.
  - intros Hok.
    split; [by apply start_project_registry_ok|].
    split; [by apply stop_project_registry_ok|]. split; [|split].
    + rewrite restart_project_eq. apply start_project_registry_ok.
      apply (registry_ok_same (stop_project E project_id st).1); [done..|].
      by apply stop_project_registry_ok.
    + apply (registry_ok_same st); [done|apply length_alter|done].
    + intros id process Hreg. destruct Hok as [Hvalid _].
      apply Hvalid, lookup_lt_is_Some in Hreg as [p Hp].
      exists p. unfold poll_is_None, handle_pid. by rewrite Hp.
Qed.

Lemma registry_ok_is_kept_witness :
  registry_ok (restart_project Example.E0 Example.E_signal_fails "p"
                 Example.project
                 (start_project Example.E0 "p" Example.project Example.st0).1).1.
Proof.
  destruct (registry_ok_is_kept Example.E0 Example.E0 "p" Example.project
              Example.st0 0%nat) as (Hinit & Hkeep).
  destruct Hkeep as (Hstart & _); [by apply Hinit|].
  destruct (registry_ok_is_kept Example.E0 Example.E_signal_fails "p"
              Example.project
              (start_project Example.E0 "p" Example.project Example.st0).1 0%nat)
    as (_ & Hkeep').
  by destruct Hkeep' as (_ & _ & Hrestart & _).
Defined.

(** ** install_project_dependencies *)

Ltac run_install :=
  unfold Install.install_project_dependencies, Install.upgrade_and_install,
    Install.bindI, Install.retI, Install.run_exec, Install.path_existsI in *.

(** X19: the programs provisioning runs, exactly.  All run in the project's
    directory, in a fixed order.  The runtime is created first, and only when
    the project has no [.venv] yet; when that program cannot be run, or
    returns a code other than zero, nothing else is run.  Otherwise pip is
    upgraded next, whatever creating the runtime left behind; when that
    program cannot be run, nothing else is run.  The requirements are
    installed last, and only when [requirements.txt] exists once pip has been
    upgraded; the return code of the upgrade plays no part.  No other program
    is run, none is run twice.  Registry, process table, stored documents and
    trace of the supervisor are not touched. *)
Theorem install_project_dependencies_runs I project_id project project_path s :
  p_path project = Some project_path ->
  let s' := (Install.install_project_dependencies I project_id project s).1 in
  let venv_run := Install.mkRun Install.venv_cmd project_path in
  let upgrade_run := Install.mkRun Install.pip_upgrade_cmd project_path in
  let install_run := Install.mkRun Install.pip_install_cmd project_path in
  let from_upgrade (fs : gset string) :=
    upgrade_run ::
      match Install.pip_upgrade_result I with
      | Raise _ => []
      | Ret cu =>
          if bool_decide (path_join project_path "requirements.txt"
                            ∈ Install.fs_after cu fs)
          then [install_run] else []
      end in
  s'.2 = s.2 ++
         (if bool_decide (path_join project_path ".venv" ∈ files s.1)
          then from_upgrade (files s.1)
          else venv_run ::
                 match Install.venv_result I with
                 | Raise _ => []
                 | Ret cv =>
                     if decide (Install.returncode cv = 0)
                     then from_upgrade (Install.fs_after cv (files s.1))
                     else []
                 end) /\
  running_processes s'.1 = running_processes s.1 /\
  procs s'.1 = procs s.1 /\
  docs s'.1 = docs s.1 /\
  trace s'.1 = trace s.1.
Proof.
  intros Hpath s' venv_run upgrade_run install_run from_upgrade.
  subst s' from_upgrade. run_install. rewrite Hpath. simpl.
  destruct (bool_decide (path_join project_path ".venv" ∈ files s.1)); simpl.
  - destruct (Install.pip_upgrade_result I) as [cu|]; simpl; [|done].
    destruct (bool_decide _); simpl; [|done].
    destruct (Install.pip_install_result I) as [ci|]; simpl.
    2: { by rewrite <- app_assoc. }
    destruct (decide (Install.returncode ci ≠ 0)); simpl;
      by rewrite <- app_assoc.
  - destruct (Install.venv_result I) as [cv|]; simpl; [|done].
    destruct (decide (Install.returncode cv ≠ 0)),
             (decide (Install.returncode cv = 0)); simpl; try done.
    destruct (Install.pip_upgrade_result I) as [cu|]; simpl.
    2: { by rewrite <- app_assoc. }
    destruct (bool_decide _); simpl.
    2: { by rewrite <- app_assoc. }
    destruct (Install.pip_install_result I) as [ci|]; simpl.
    2: { by rewrite <- !app_assoc. }
    destruct (decide (Install.returncode ci ≠ 0)); simpl;
      by rewrite <- !app_assoc.
Qed.

Lemma install_project_dependencies_runs_witness :
  (Install.install_project_dependencies Example2.I_ok "p" Example.project
     Example2.st_bare).1.2
    = [Install.mkRun Install.venv_cmd "/srv/p";
       Install.mkRun Install.pip_upgrade_cmd "/srv/p";
       Install.mkRun Install.pip_install_cmd "/srv/p"].
Proof.
  destruct (install_project_dependencies_runs Example2.I_ok "p" Example.project
              "/srv/p" Example2.st_bare) as (Hruns & _).
  - reflexivity.
  - rewrite Hruns. vm_compute. reflexivity.
Defined.





(** ** get_project_logs *)

(** X22: the log query hands back the very file a start writes to.  When
    the database yields the project dict a successful start was given, the
    answer of [get_project_logs] is the file the child's output goes to.  The
    query itself changes nothing, and it catches nothing: an error of the
    database, or a project without execution info or log file, makes it
    raise. *)
Theorem get_project_logs_is_the_childs_output E answer project_id project st st' m :
  (forall s, (get_project_logs answer project_id s).1 = s) /\
  (forall e s, answer = Raise e -> (get_project_logs answer project_id s).2 = Raise e) /\
  (forall s, answer = Ret project -> p_execution_info project = None ->
     (get_project_logs answer project_id s).2 = Raise (KeyError "execution_info")) /\
  (answer = Ret project ->
   start_project E project_id project st = (st', Ret (true, m)) ->
   exists p,
     procs st' !! length (procs st) = Some p /\
     (get_project_logs answer project_id st').2 = Ret (proc_out p)).
Proof.
  unfold get_project_logs, get_project_by_id. run_monad.
  split; [|split; [|split]].
  - intros s. destruct answer as [pr|]; simpl; [|done].
    destruct (p_execution_info pr) as [info|]; simpl; [|done].
    by destruct (info !! "log_file").
  - by intros e s ->.
  - intros s -> Hinfo. simpl. by rewrite Hinfo.
  - intros -> Hstart.
    destruct (start_project_success_inv _ _ _ _ _ _ Hstart)
      as (project_path & exec_info & log_target & user_env & child &
          Hlive & Hpath & Hvenv & Hinfo & Hlog & Hopen & Henv & Hpopen & Hupd).
    rewrite (start_project_reaches_spawn _ _ _ _ _ _ _ _
               Hlive Hpath Hvenv Hinfo Hlog Hopen Henv), Hpopen, Hupd in Hstart.
    simpl in Hstart. injection Hstart as <- <-. simpl.
    eexists. split; [apply lookup_new_proc|].
    rewrite Hinfo. simpl. by rewrite Hlog.
Qed.

Lemma get_project_logs_is_the_childs_output_witness :
  (get_project_logs (Ret Example.project) "p" Example.st_started).2
    = Ret (VStr "/srv/p/out.log").
Proof.
  destruct (get_project_logs_is_the_childs_output Example.E0 (Ret Example.project)
              "p" Example.project Example.st0 Example.st_started (msg_started 4242))
    as (_ & _ & _ & H).
  destruct H as (p & Hp & Hr).
  - reflexivity.
  - vm_compute. reflexivity.
  - rewrite Hr. revert Hp. vm_compute. by intros [= <-].
Defined.

(** ** More ways through a stop *)



(** X24: a stop gives up its child before it knows that the child is
    gone.  When the termination signal cannot be sent, the stop answers with
    a failure carrying the error text; the process table is untouched, so the
    child is still alive, but the project has no registry entry any more:
    nothing is waited for or killed, nothing is written to the database, and
    a start that follows does not answer "already running". *)
Theorem stop_project_signal_failure_orphans_child E E' project_id project st
    process e :
  running_processes st !! project_id = Some process ->
  poll_is_None st process = true ->
  terminate_result E = Some e ->
  let st' := (stop_project E project_id st).1 in
  (stop_project E project_id st).2 = Ret (false, msg_stop_failed e) /\
  procs st' = procs st /\
  poll_is_None st' process = true /\
  running_processes st' !! project_id = None /\
  docs st' = docs st /\
  trace st' = trace st ++ [EvTerminate process] /\
  (start_project E' project_id project st').2 <> Ret (false, msg_already_running).
Proof.
  intros Hreg Hpoll Hterm st'.
  assert (Hstop : stop_project E project_id st
                  = (log_event (EvTerminate process)
                       (set_running_processes
                          (delete project_id (running_processes st)) st),
                     Ret (false, msg_stop_failed e))).
  { unfold stop_project. rewrite Hreg, poll_set_running_processes, Hpoll.
    run_monad. simpl. by rewrite Hterm. }
  subst st'. rewrite Hstop. simpl.
  split; [done|]. split; [done|]. split; [exact Hpoll|].
  split; [apply lookup_delete_eq|]. split; [done|]. split; [done|].
  match goal with |- (start_project E' project_id project ?s).2 <> _ => set (s1 := s) end.
  assert (Hlive : is_live s1 project_id = false).
  { apply is_live_absent. subst s1. simpl. apply lookup_delete_eq. }
  destruct (start_project_results E' project_id project s1) as [[Hl _]|[_ Hr]];
    [congruence|].
  destruct Hr as [Hr|[[e1 Hr]|[child Hr]]]; rewrite Hr; intros Hbad.
  - apply msg_venv_missing_not_already_running. congruence.
  - apply (msg_execution_failed_not_already_running e1). congruence.
  - discriminate Hbad.
Qed.

Lemma stop_project_signal_failure_orphans_child_witness :
  (alive <$> procs (stop_project Example.E_signal_fails "p" Example.st_started).1)
    = [true] /\
  running_processes (stop_project Example.E_signal_fails "p" Example.st_started).1 !! "p"
    = None.
Proof.
  destruct (stop_project_signal_failure_orphans_child Example.E_signal_fails
              Example.E0 "p" Example.project Example.st_started 0%nat Example.boom)
    as (_ & Hprocs & _ & Hgone & _).
  - vm_compute. reflexivity.
  - vm_compute. reflexivity.
  - reflexivity.
  - split; [rewrite Hprocs; vm_compute; reflexivity|exact Hgone].
Defined.
